(** * StateGenUI: the typed workflow graph builder and its serializer

    A shallow embedding of [xinjector_stategen/dag/state_generator.py]
    (pins, nodes, links, the [StateGenerator] class with its node factories,
    [link_pins] and [generate]) and of the patterns of
    [xinjector_stategen/workflow_builder.py] that the verified properties
    mention.

    Python integers are unbounded and are modelled as [Z]; Python floats are
    IEEE binary64 and are modelled as primitive floats; [str] is [string];
    a [dict] keeps insertion order and is an association list updated in
    place.  Methods of [StateGenerator] mutate [self] and may raise
    [ValueError]: they live in a state-and-exception monad over the record
    [StateGenerator]. *)

From Stdlib Require Import ZArith List String Ascii Bool Lia.
From Stdlib Require Import Sorted Relations.
From Stdlib Require Import PrimFloat.
From Stdlib Require DecimalString.
Import ListNotations.

Local Open Scope string_scope.
Local Open Scope Z_scope.

(* ================================================================== *)
(** ** Python values that reach the JSON document *)

(** The values stored in a node's [config] and in the dictionaries built by
    the [to_dict] methods. *)
#[warnings="-register-all"]
Inductive json : Type :=
| JBool (b : bool)
| JInt (z : Z)
| JFloat (f : float)
| JStr (s : string)
| JList (l : list json)
| JDict (d : list (string * json)).

(** A Python [dict] with string keys: insertion-ordered, keys unique. *)
Definition pydict (V : Type) : Type := list (string * V).

Section PyDict.
Context {V : Type}.

(** [d.get(k)] *)
Fixpoint dict_get (k : string) (d : pydict V) : option V :=
  match d with
  | [] => None
  | (k', v) :: d' => if String.eqb k' k then Some v else dict_get k d'
  end.

(** [d[k] = v]: an existing key keeps its place and takes the new value,
    a new key goes to the end. *)
Fixpoint dict_set (d : pydict V) (k : string) (v : V) : pydict V :=
  match d with
  | [] => [(k, v)]
  | (k', v') :: d' =>
      if String.eqb k' k then (k', v) :: d' else (k', v') :: dict_set d' k v
  end.

(** [d.update(other)] *)
Definition dict_update (d other : pydict V) : pydict V :=
  fold_left (fun acc kv => dict_set acc (fst kv) (snd kv)) other d.

Definition dict_keys (d : pydict V) : list string := map fst d.

(** The invariant of every Python dict: no key occurs twice. *)
Definition dict_wf (d : pydict V) : Prop := NoDup (dict_keys d).
End PyDict.

(** [f"{i}"] for an integer. *)
Definition str_of_int (z : Z) : string :=
  DecimalString.NilZero.string_of_int (Z.to_int z).

(** [str(b)] for a boolean, as an f-string prints it. *)
Definition str_of_bool (b : bool) : string := if b then "True" else "False".

(* ================================================================== *)
(** ** Enumerations *)

Definition BASE_ID : Z := 50000.

Inductive PinType : Type := EXECUTION | VECTOR2 | BOOLEAN | FLOAT.

Definition PinType_value (t : PinType) : string :=
  match t with
  | EXECUTION => "execution"
  | VECTOR2 => "Vector2"
  | BOOLEAN => "bool"
  | FLOAT => "float"
  end.

Definition PinType_eqb (a b : PinType) : bool :=
  match a, b with
  | EXECUTION, EXECUTION | VECTOR2, VECTOR2
  | BOOLEAN, BOOLEAN | FLOAT, FLOAT => true
  | _, _ => false
  end.

Inductive NodeType : Type :=
| START | SEQUENCE | IF | PUSH_NODE | WAIT | ENEMY_LIST | PLAYER_POS | POINT
| POINT_LIST | MOVE_TO | ENTER_PORTAL | MAP_CHANGE | OPERATOR | COMPARISON
| SAVE_POS | USE_ITEM | SEND_MESSAGE | RECEIVE_MESSAGE | GROUP | HOTKEY
| PLAYER_COUNT | STATUS_LEVEL | SWITCH_SERVER | CONNECT_TO_QUEST | NEXUS
| RESET_TILE_CACHE | OFFSET_POS.

Definition NodeType_value (t : NodeType) : string :=
  match t with
  | START => "Start"
  | SEQUENCE => "Sequence"
  | IF => "If"
  | PUSH_NODE => "PushNode"
  | WAIT => "Wait"
  | ENEMY_LIST => "EnemyList"
  | PLAYER_POS => "PlayerPos"
  | POINT => "Point"
  | POINT_LIST => "PointList"
  | MOVE_TO => "MoveTo"
  | ENTER_PORTAL => "EnterPortal"
  | MAP_CHANGE => "MapChange"
  | OPERATOR => "Operator"
  | COMPARISON => "Comparison"
  | SAVE_POS => "SavePos"
  | USE_ITEM => "UseItem"
  | SEND_MESSAGE => "SendMessageL"
  | RECEIVE_MESSAGE => "ReceivedMessage"
  | GROUP => "Group"
  | HOTKEY => "Hotkey"
  | PLAYER_COUNT => "PlayerCount"
  | STATUS_LEVEL => "StatusLevel"
  | SWITCH_SERVER => "SwitchServer"
  | CONNECT_TO_QUEST => "ConnectToQuest"
  | NEXUS => "Nexus"
  | RESET_TILE_CACHE => "ResetTileCache"
  | OFFSET_POS => "OffsetPos"
  end.

(* ================================================================== *)
(** ** Pin, Node, Link *)

Record Pin : Type := mkPin {
  pin_id : Z;
  pin_name : string;
  pin_type : PinType
}.

Definition Pin_to_dict (p : Pin) : json :=
  JDict [("id", JInt (pin_id p)); ("name", JStr (pin_name p))].

Definition Position : Type := (float * float)%type.

Record Node : Type := mkNode {
  node_type : string;
  position : Position;
  in_pins : list Pin;
  out_pins : list Pin;
  config : pydict json
}.

(** [Node.to_dict]: the structural keys are written first, then the config
    is merged over them with [dict.update].  The coordinates are floats
    already, so [float(...)] returns them as they are; [inPins] and
    [outPins] are written for non-empty arrays only. *)
Definition Node_to_dict (n : Node) : pydict json :=
  let result : pydict json :=
    [("nodeType", JStr (node_type n));
     ("position", JDict [("x", JFloat (fst (position n)));
                         ("y", JFloat (snd (position n)))])] in
  let result :=
    match in_pins n with
    | [] => result
    | _ :: _ => dict_set result "inPins" (JList (map Pin_to_dict (in_pins n)))
    end in
  let result :=
    match out_pins n with
    | [] => result
    | _ :: _ => dict_set result "outPins" (JList (map Pin_to_dict (out_pins n)))
    end in
  dict_update result (config n).

Record Link : Type := mkLink {
  left_pin_id : Z;
  right_pin_id : Z
}.

Definition Link_to_dict (l : Link) : pydict json :=
  [("leftPinID", JInt (left_pin_id l)); ("rightPinID", JInt (right_pin_id l))].

(* ================================================================== *)
(** ** The generator object and its monad *)

Record StateGenerator : Type := mkGen {
  nodes : list Node;
  links : list Link;
  current_id : Z
}.

(** [StateGenerator.__init__] *)
Definition init : StateGenerator :=
  {| nodes := []; links := []; current_id := BASE_ID |}.

(** The four [raise ValueError(...)] sites of [link_pins], each with the
    values its message is formatted from. *)
Inductive LinkError : Type :=
| PinNotFound (source_pin_name target_pin_name : string)
| TypeMismatch (source_pin target_pin : Pin)
| InvalidLinkShape (source_pin_name target_pin_name : string)
                   (source_is_out target_is_out : bool)
| DuplicateLink (source_pin target_pin : Pin).

(** The text of the raised [ValueError]. *)
Definition LinkError_message (e : LinkError) : string :=
  match e with
  | PinNotFound s t => "Pin not found: " ++ s ++ " -> " ++ t
  | TypeMismatch sp tp =>
      "Type mismatch linking " ++ pin_name sp ++ "("
        ++ PinType_value (pin_type sp) ++ ") to " ++ pin_name tp ++ "("
        ++ PinType_value (pin_type tp) ++ ")"
  | InvalidLinkShape s t so to =>
      "Invalid link: both pins from same array type. source(" ++ s
        ++ ") is_out=" ++ str_of_bool so ++ ", target(" ++ t
        ++ ") is_out=" ++ str_of_bool to
  | DuplicateLink sp tp =>
      "Duplicate link: " ++ pin_name sp ++ " -> " ++ pin_name tp
  end.

(** A method call: it receives the object, returns a value or raises, and
    leaves the object in some state either way. *)
Definition M (A : Type) : Type :=
  StateGenerator -> (LinkError + A) * StateGenerator.

Definition ret {A} (a : A) : M A := fun g => (inr a, g).

Definition bind {A B} (m : M A) (k : A -> M B) : M B :=
  fun g =>
    match m g with
    | (inl e, g') => (inl e, g')
    | (inr a, g') => k a g'
    end.

Definition raise {A} (e : LinkError) : M A := fun g => (inl e, g).

Definition get_gen : M StateGenerator := fun g => (inr g, g).

Definition put_gen (g' : StateGenerator) : M unit := fun _ => (inr tt, g').

Notation "x <- m ;; k" := (bind m (fun x => k))
  (at level 61, m at next level, right associativity).
Notation "m ;;; k" := (bind m (fun _ => k))
  (at level 61, right associativity).

(** [for x in xs] collecting results, left to right. *)
Fixpoint mapM {A B} (f : A -> M B) (xs : list A) : M (list B) :=
  match xs with
  | [] => ret []
  | x :: xs' => y <- f x ;; ys <- mapM f xs' ;; ret (y :: ys)
  end.

(** [get_next_id]: increment, then return the new value. *)
Definition get_next_id : M Z :=
  g <- get_gen ;;
  put_gen {| nodes := nodes g; links := links g;
             current_id := current_id g + 1 |} ;;;
  g' <- get_gen ;;
  ret (current_id g').

Definition _create_pin (name : string) (pin_type : PinType) : M Pin :=
  i <- get_next_id ;;
  ret (mkPin i name pin_type).

(** [self.nodes.append(node)] *)
Definition nodes_append (node : Node) : M unit :=
  g <- get_gen ;;
  put_gen {| nodes := nodes g ++ [node]; links := links g;
             current_id := current_id g |}.

(** [self.links.append(link)] *)
Definition links_append (l : Link) : M unit :=
  g <- get_gen ;;
  put_gen {| nodes := nodes g; links := links g ++ [l];
             current_id := current_id g |}.

(* ================================================================== *)
(** ** Node factories

    Every factory evaluates its pin constructors in the order they are
    written in the source (the [in_pins] argument before the [out_pins]
    argument), builds the node, appends it to [self.nodes] and returns it.
    Parameters that have a default value in the source are explicit here. *)

Definition create_start_node (name : string) (position : Position) : M Node :=
  p_in <- _create_pin "In" EXECUTION ;;
  let node := mkNode (NodeType_value START) position [p_in] []
                     [("nodeName", JStr name)] in
  nodes_append node ;;; ret node.

Definition create_sequence (position : Position) : M Node :=
  p_in <- _create_pin "In" EXECUTION ;;
  rest <- mapM (fun i => _create_pin ("In " ++ str_of_int i) EXECUTION)
               [2; 3; 4; 5] ;;
  let inputs := ([p_in] ++ rest)%list in
  p_out <- _create_pin "Out" EXECUTION ;;
  let node := mkNode (NodeType_value SEQUENCE) position inputs [p_out] [] in
  nodes_append node ;;; ret node.

Definition create_if_node (position : Position) : M Node :=
  p_true <- _create_pin "True" EXECUTION ;;
  p_false <- _create_pin "False" EXECUTION ;;
  p_cond <- _create_pin "Condition" BOOLEAN ;;
  p_out <- _create_pin "Out" EXECUTION ;;
  let node := mkNode (NodeType_value IF) position
                     [p_true; p_false; p_cond] [p_out] [] in
  nodes_append node ;;; ret node.

Definition create_push_node (target_state : string) (position : Position)
  : M Node :=
  p_out <- _create_pin "Out" EXECUTION ;;
  let node := mkNode (NodeType_value PUSH_NODE) position [] [p_out]
                     [("name", JStr target_state)] in
  nodes_append node ;;; ret node.

Definition create_wait (wait_time : Z) (position : Position) : M Node :=
  p_in <- _create_pin "In" EXECUTION ;;
  p_out <- _create_pin "Out" EXECUTION ;;
  let node := mkNode (NodeType_value WAIT) position [p_in] [p_out]
                     [("waitTime", JInt wait_time)] in
  nodes_append node ;;; ret node.

(** defaults: [object_type=0, sort_type=0, ignore_invul=False] *)
Definition create_enemy_list (enemy_ids : list Z) (position : Position)
    (object_type sort_type : Z) (ignore_invul : bool) : M Node :=
  p_pos <- _create_pin "Pos" VECTOR2 ;;
  p_exists <- _create_pin "Exists" BOOLEAN ;;
  p_id <- _create_pin "ID" FLOAT ;;
  let node := mkNode (NodeType_value ENEMY_LIST) position []
                     [p_pos; p_exists; p_id]
                     [("enemyList", JList (map JInt enemy_ids));
                      ("objectType", JInt object_type);
                      ("sortType", JInt sort_type);
                      ("ignoreInvul", JBool ignore_invul)] in
  nodes_append node ;;; ret node.

Definition create_player_pos (position : Position) : M Node :=
  p_pos <- _create_pin "Pos" VECTOR2 ;;
  let node := mkNode (NodeType_value PLAYER_POS) position [] [p_pos] [] in
  nodes_append node ;;; ret node.

Definition point_dict (x y : float) : json :=
  JDict [("x", JFloat x); ("y", JFloat y)].

Definition create_point (x y : float) (position : Position) : M Node :=
  p_pos <- _create_pin "Pos" VECTOR2 ;;
  let node := mkNode (NodeType_value POINT) position [] [p_pos]
                     [("point", point_dict x y)] in
  nodes_append node ;;; ret node.

(** defaults: [randomize=False, switch_distance=1.0] *)
Definition create_point_list (points : list (float * float))
    (position : Position) (randomize : bool) (switch_distance : float)
  : M Node :=
  let point_dicts := map (fun xy => point_dict (fst xy) (snd xy)) points in
  p_pos <- _create_pin "Pos" VECTOR2 ;;
  let node := mkNode (NodeType_value POINT_LIST) position [] [p_pos]
                     [("pointList", JList point_dicts);
                      ("randomize", JBool randomize);
                      ("switchDistance", JFloat switch_distance)] in
  nodes_append node ;;; ret node.

(** defaults: [teleport=False, teleport_once=False] *)
Definition create_move_to (position : Position)
    (teleport teleport_once : bool) : M Node :=
  p_in <- _create_pin "In" EXECUTION ;;
  p_position <- _create_pin "Position" VECTOR2 ;;
  p_out <- _create_pin "Out" EXECUTION ;;
  let node := mkNode (NodeType_value MOVE_TO) position
                     [p_in; p_position] [p_out]
                     [("teleport", JBool teleport);
                      ("teleportOnce", JBool teleport_once)] in
  nodes_append node ;;; ret node.

Definition create_enter_portal (position : Position) : M Node :=
  p_in <- _create_pin "In" EXECUTION ;;
  p_portal <- _create_pin "Portal ID" FLOAT ;;
  p_out <- _create_pin "Out" EXECUTION ;;
  let node := mkNode (NodeType_value ENTER_PORTAL) position
                     [p_in; p_portal] [p_out] [] in
  nodes_append node ;;; ret node.

Definition create_map_change (map_name : string) (position : Position)
  : M Node :=
  p_in <- _create_pin "In" EXECUTION ;;
  let node := mkNode (NodeType_value MAP_CHANGE) position [p_in] []
                     [("mapName", JStr map_name)] in
  nodes_append node ;;; ret node.

(** defaults: [operator_type=0, towards_distance=0.0] *)
Definition create_operator (position : Position) (operator_type : Z)
    (towards_distance : float) : M Node :=
  p_a <- _create_pin "A" VECTOR2 ;;
  p_b <- _create_pin "B" VECTOR2 ;;
  p_val <- _create_pin "Val" FLOAT ;;
  p_result <- _create_pin "Result" VECTOR2 ;;
  p_distance <- _create_pin "Distance" FLOAT ;;
  let node := mkNode (NodeType_value OPERATOR) position
                     [p_a; p_b; p_val] [p_result; p_distance]
                     [("operatorType", JInt operator_type);
                      ("towardsDistance", JFloat towards_distance)] in
  nodes_append node ;;; ret node.

(** defaults: [comparison_type=0, val_to_compare=0.0] *)
Definition create_comparison (position : Position) (comparison_type : Z)
    (val_to_compare : float) : M Node :=
  p_a <- _create_pin "A" FLOAT ;;
  p_result <- _create_pin "Result" BOOLEAN ;;
  let node := mkNode (NodeType_value COMPARISON) position [p_a] [p_result]
                     [("comparisonType", JInt comparison_type);
                      ("valToCompare", JFloat val_to_compare)] in
  nodes_append node ;;; ret node.

(** default: [persistent=False] *)
Definition create_save_pos (position : Position) (persistent : bool)
  : M Node :=
  p_in <- _create_pin "In" EXECUTION ;;
  p_pos <- _create_pin "Pos" VECTOR2 ;;
  p_out <- _create_pin "Out" EXECUTION ;;
  p_saved <- _create_pin "Saved Pos" VECTOR2 ;;
  p_has <- _create_pin "Has Value" BOOLEAN ;;
  let node := mkNode (NodeType_value SAVE_POS) position
                     [p_in; p_pos] [p_out; p_saved; p_has]
                     [("persistentPos", JBool persistent)] in
  nodes_append node ;;; ret node.

Definition create_use_item (item_id : Z) (position : Position) : M Node :=
  p_in <- _create_pin "In" EXECUTION ;;
  p_out <- _create_pin "Out" EXECUTION ;;
  p_has <- _create_pin "Has" BOOLEAN ;;
  let node := mkNode (NodeType_value USE_ITEM) position
                     [p_in] [p_out; p_has]
                     [("itemId", JInt item_id)] in
  nodes_append node ;;; ret node.

(** default: [delay_ms=0] *)
Definition create_send_message (message : string) (position : Position)
    (delay_ms : Z) : M Node :=
  p_in <- _create_pin "In" EXECUTION ;;
  p_out <- _create_pin "Out" EXECUTION ;;
  let node := mkNode (NodeType_value SEND_MESSAGE) position [p_in] [p_out]
                     [("message", JStr message);
                      ("delayMs", JInt delay_ms);
                      ("sendWithDelay", JBool (0 <? delay_ms))] in
  nodes_append node ;;; ret node.

Definition create_received_message (from_player content : string)
    (position : Position) : M Node :=
  p_in <- _create_pin "In" EXECUTION ;;
  p_out <- _create_pin "Out" EXECUTION ;;
  let node := mkNode (NodeType_value RECEIVE_MESSAGE) position [p_in] [p_out]
                     [("from", JStr from_player);
                      ("content", JStr content)] in
  nodes_append node ;;; ret node.

(** defaults: [epsilon=0.1, max_dist=15.0] *)
Definition create_group (position : Position) (epsilon max_dist : float)
  : M Node :=
  p_center <- _create_pin "Center" VECTOR2 ;;
  let node := mkNode (NodeType_value GROUP) position [] [p_center]
                     [("epsilon", JFloat epsilon);
                      ("maxDistanceFromPlayer", JFloat max_dist)] in
  nodes_append node ;;; ret node.

Definition create_hotkey (position : Position) : M Node :=
  p_none <- _create_pin "None" EXECUTION ;;
  p_pressed <- _create_pin "Pressed" EXECUTION ;;
  p_held <- _create_pin "Held" EXECUTION ;;
  p_out <- _create_pin "Out" EXECUTION ;;
  let node := mkNode (NodeType_value HOTKEY) position
                     [p_none; p_pressed; p_held] [p_out]
                     [("hotkeyName", JStr "");
                      ("nodehotkey",
                       JDict [("isAlt", JBool false);
                              ("isCtrl", JBool false);
                              ("isShift", JBool false);
                              ("key", JInt 0)])] in
  nodes_append node ;;; ret node.

(** default: [exclude_wl=True] *)
Definition create_player_count (position : Position) (exclude_wl : bool)
  : M Node :=
  p_count <- _create_pin "Count" FLOAT ;;
  let node := mkNode (NodeType_value PLAYER_COUNT) position [] [p_count]
                     [("excludeWLPlayers", JBool exclude_wl)] in
  nodes_append node ;;; ret node.

(** default: [status_type=0] *)
Definition create_status_level (position : Position) (status_type : Z)
  : M Node :=
  p_level <- _create_pin "Level" FLOAT ;;
  let node := mkNode (NodeType_value STATUS_LEVEL) position [] [p_level]
                     [("statusType", JInt status_type)] in
  nodes_append node ;;; ret node.

Definition create_switch_server (position : Position) : M Node :=
  p_out <- _create_pin "Out" EXECUTION ;;
  let node := mkNode (NodeType_value SWITCH_SERVER) position [] [p_out] [] in
  nodes_append node ;;; ret node.

(** default: [max_pop=85] *)
Definition create_connect_to_quest (position : Position) (max_pop : Z)
  : M Node :=
  p_out <- _create_pin "Out" EXECUTION ;;
  let node := mkNode (NodeType_value CONNECT_TO_QUEST) position [] [p_out]
                     [("selectedQuestType", JList []);
                      ("maxRealmPopCount", JInt max_pop);
                      ("minRealmPopCount", JInt 0)] in
  nodes_append node ;;; ret node.

Definition create_nexus (position : Position) : M Node :=
  p_out <- _create_pin "Out" EXECUTION ;;
  let node := mkNode (NodeType_value NEXUS) position [] [p_out] [] in
  nodes_append node ;;; ret node.

Definition create_reset_tile_cache (position : Position) : M Node :=
  p_out <- _create_pin "Out" EXECUTION ;;
  let node := mkNode (NodeType_value RESET_TILE_CACHE) position [] [p_out] []
  in
  nodes_append node ;;; ret node.

(** default: [dist=1.0] *)
Definition create_offset_pos (position : Position) (dist : float) : M Node :=
  p_pos <- _create_pin "Pos" VECTOR2 ;;
  p_result <- _create_pin "Result" VECTOR2 ;;
  let node := mkNode (NodeType_value OFFSET_POS) position [p_pos] [p_result]
                     [("offsetDist", JFloat dist)] in
  nodes_append node ;;; ret node.

(* ================================================================== *)
(** ** link_pins *)

(** [for pin in pins: if pin.name == name: ...; break] *)
Definition find_pin (name : string) (pins : list Pin) : option Pin :=
  find (fun pin => String.eqb (pin_name pin) name) pins.

(** The source side: [out_pins] is scanned first, [in_pins] only when that
    found nothing.  The result is [(source_pin, source_is_out)]. *)
Definition find_source_pin (source_node : Node) (source_pin_name : string)
  : option Pin * bool :=
  match find_pin source_pin_name (out_pins source_node) with
  | Some pin => (Some pin, true)
  | None =>
      match find_pin source_pin_name (in_pins source_node) with
      | Some pin => (Some pin, false)
      | None => (None, false)
      end
  end.

(** The target side: [in_pins] is scanned first, [out_pins] only when that
    found nothing.  The result is [(target_pin, target_is_out)]. *)
Definition find_target_pin (target_node : Node) (target_pin_name : string)
  : option Pin * bool :=
  match find_pin target_pin_name (in_pins target_node) with
  | Some pin => (Some pin, false)
  | None =>
      match find_pin target_pin_name (out_pins target_node) with
      | Some pin => (Some pin, true)
      | None => (None, false)
      end
  end.

(** [any(l.left_pin_id == left and l.right_pin_id == right for l in links)] *)
Definition link_present (left right : Z) (ls : list Link) : bool :=
  existsb (fun l => (left_pin_id l =? left) && (right_pin_id l =? right)) ls.

Definition link_pins (source_node : Node) (source_pin_name : string)
    (target_node : Node) (target_pin_name : string) : M unit :=
  let '(source_pin, source_is_out) :=
    find_source_pin source_node source_pin_name in
  let '(target_pin, target_is_out) :=
    find_target_pin target_node target_pin_name in
  match source_pin, target_pin with
  | Some source_pin, Some target_pin =>
      if negb (PinType_eqb (pin_type source_pin) (pin_type target_pin)) then
        raise (TypeMismatch source_pin target_pin)
      else
        lr <- (if source_is_out && negb target_is_out then
                 ret (source_pin, target_pin)
               else if negb source_is_out && target_is_out then
                 ret (target_pin, source_pin)
               else
                 raise (InvalidLinkShape source_pin_name target_pin_name
                                         source_is_out target_is_out)) ;;
        let left_pin := fst lr in
        let right_pin := snd lr in
        g <- get_gen ;;
        if link_present (pin_id left_pin) (pin_id right_pin) (links g) then
          raise (DuplicateLink source_pin target_pin)
        else
          links_append (mkLink (pin_id left_pin) (pin_id right_pin))
  | _, _ => raise (PinNotFound source_pin_name target_pin_name)
  end.

(* ================================================================== *)
(** ** generate *)

Section Serializer.
(** [json.dumps(., indent=4)] of the Python standard library: a function
    from the value to its text. *)
Variable json_dumps : json -> string.

(** The dictionary handed to [json.dumps]. *)
Definition document (g : StateGenerator) : pydict json :=
  [("links", JList (map (fun link => JDict (Link_to_dict link)) (links g)));
   ("nodes", JList (map (fun node => JDict (Node_to_dict node)) (nodes g)));
   ("version", JStr "1.0")].

Definition generate : M string :=
  g <- get_gen ;;
  let result := document g in
  ret (json_dumps (JDict result)).
End Serializer.

(* ================================================================== *)
(** ** WorkflowBuilder

    The builder owns one [StateGenerator] ([self.gen]); its methods run in
    the same monad.  [PatternNodes] is a dict from role name to node. *)

Definition PatternNodes : Type := pydict Node.

Definition H_SPACE : float := 200%float.
Definition DEPTH_SPACE : float := 200%float.
Definition DATA_OFFSET : float := (-150)%float.

Definition link_exec (from_node : Node) (from_pin : string)
    (to_node : Node) (to_pin : string) : M unit :=
  link_pins from_node from_pin to_node to_pin.

Definition link_data (from_node : Node) (from_pin : string)
    (to_node : Node) (to_pin : string) : M unit :=
  link_pins from_node from_pin to_node to_pin.

(** [s.replace(old, new)] for a non-empty [old]: occurrences are replaced
    from the left and do not overlap.  [skip] counts the characters of a
    matched occurrence still to be dropped. *)
Fixpoint str_replace_from (old new : string) (skip : nat) (s : string)
  : string :=
  match s with
  | EmptyString => EmptyString
  | String c s' =>
      match skip with
      | S k => str_replace_from old new k s'
      | O =>
          if String.prefix old s then
            new ++ str_replace_from old new (String.length old - 1) s'
          else String c (str_replace_from old new O s')
      end
  end.

Definition str_replace (old new s : string) : string :=
  str_replace_from old new O s.

(** default: [object_type=0] *)
Definition create_find_target (enemy_ids : list Z) (position : Position)
    (object_type : Z) : M PatternNodes :=
  let '(x, y) := position in
  let result : PatternNodes := [] in
  finder <- create_enemy_list enemy_ids (x, y) object_type 0 false ;;
  let result := dict_set result "finder" finder in
  check <- create_if_node ((x - H_SPACE)%float, y) ;;
  let result := dict_set result "check" check in
  link_data finder "Exists" check "Condition" ;;;
  ret result.

(** defaults: [teleport=False, offset_dist=None] *)
Definition create_move_to_target (position : Position) (teleport : bool)
    (offset_dist : option float) : M PatternNodes :=
  let '(x, y) := position in
  let result : PatternNodes := [] in
  match offset_dist with
  | Some dist =>
      offset <- create_offset_pos (x, y) dist ;;
      let result := dict_set result "offset" offset in
      move <- create_move_to ((x - H_SPACE)%float, y) teleport false ;;
      let result := dict_set result "move" move in
      link_data offset "Result" move "Position" ;;;
      ret result
  | None =>
      move <- create_move_to (x, y) teleport false ;;
      let result := dict_set result "move" move in
      ret result
  end.

(** default: [distance_threshold=10.0] *)
Definition create_beacon_search (beacon_enemy_id : Z)
    (beacon_position : float * float) (next_state : string)
    (position : Position) (distance_threshold : float) : M PatternNodes :=
  let '(x, y) := position in
  let result : PatternNodes := [] in
  (* depth 0: main execution chain *)
  start <- create_start_node (str_replace "_clear" "_beacon" next_state)
                             (x, y) ;;
  let result := dict_set result "start" start in
  sequence <- create_sequence ((x - H_SPACE)%float, y) ;;
  let result := dict_set result "sequence" sequence in
  distance_check <- create_if_node ((x - 2 * H_SPACE)%float, y) ;;
  let result := dict_set result "distance_check" distance_check in
  teleport_move <- create_move_to ((x - 3 * H_SPACE)%float, y) true false ;;
  let result := dict_set result "teleport_move" teleport_move in
  (* data for depth 0 *)
  let data_y := (y + DATA_OFFSET)%float in
  player_pos <- create_player_pos ((x - H_SPACE)%float, data_y) ;;
  let result := dict_set result "player_pos" player_pos in
  beacon_point <- create_point_list [beacon_position]
                    ((x - 2 * H_SPACE)%float, data_y) false 1%float ;;
  let result := dict_set result "beacon_point" beacon_point in
  operator <- create_operator ((x - 3 * H_SPACE)%float, data_y) 0 0%float ;;
  let result := dict_set result "operator" operator in
  comparison <- create_comparison ((x - 4 * H_SPACE)%float, data_y) 2
                                  distance_threshold ;;
  let result := dict_set result "comparison" comparison in
  (* depth 1: nested decision *)
  let depth1_y := (y + DEPTH_SPACE)%float in
  enemy_check <- create_if_node ((x - 2 * H_SPACE)%float, depth1_y) ;;
  let result := dict_set result "enemy_check" enemy_check in
  enemy_move <- create_move_to ((x - 3 * H_SPACE)%float, depth1_y)
                               false false ;;
  let result := dict_set result "enemy_move" enemy_move in
  push_next <- create_push_node next_state
                 ((x - 3 * H_SPACE)%float, (depth1_y + DEPTH_SPACE)%float) ;;
  let result := dict_set result "push_next" push_next in
  (* data for depth 1 *)
  let enemy_data_y := (y + DEPTH_SPACE / 2)%float in
  enemy_finder <- create_enemy_list [beacon_enemy_id]
                    ((x - 3 * H_SPACE)%float, enemy_data_y) 0 0 false ;;
  let result := dict_set result "enemy_finder" enemy_finder in
  enemy_offset <- create_offset_pos
                    ((x - 4 * H_SPACE)%float, (enemy_data_y + 50)%float)
                    2.5%float ;;
  let result := dict_set result "enemy_offset" enemy_offset in
  (* data links *)
  link_data player_pos "Pos" operator "A" ;;;
  link_data beacon_point "Pos" operator "B" ;;;
  link_data operator "Distance" comparison "A" ;;;
  link_data comparison "Result" distance_check "Condition" ;;;
  link_data beacon_point "Pos" teleport_move "Position" ;;;
  link_data enemy_finder "Exists" enemy_check "Condition" ;;;
  link_data enemy_finder "Pos" enemy_offset "Pos" ;;;
  link_data enemy_offset "Result" enemy_move "Position" ;;;
  (* execution links *)
  link_exec start "In" sequence "Out" ;;;
  link_exec sequence "In" distance_check "Out" ;;;
  link_exec distance_check "False" teleport_move "Out" ;;;
  link_exec distance_check "True" enemy_check "Out" ;;;
  link_exec enemy_check "True" enemy_move "Out" ;;;
  link_exec enemy_check "False" push_next "Out" ;;;
  ret result.

(** A pin id is located in an output (input) array of a registered node. *)
Definition in_some_out_array (g : StateGenerator) (i : Z) : Prop :=
  exists n p, In n (nodes g) /\ In p (out_pins n) /\ pin_id p = i.

Definition in_some_in_array (g : StateGenerator) (i : Z) : Prop :=
  exists n p, In n (nodes g) /\ In p (in_pins n) /\ pin_id p = i.


(** Small concrete graphs used to run the operations on. *)
Definition origin : Position := (0%float, 0%float).

(** An offset node and a move node made by the factories on a fresh
    generator, and the generator that holds them. *)
Definition ex_offset : Node :=
  Eval vm_compute in
    match create_offset_pos origin 2.5%float init with
    | (inr n, _) => n
    | (inl _, _) => mkNode "" origin [] [] []
    end.

Definition ex_gen1 : StateGenerator :=
  Eval vm_compute in snd (create_offset_pos origin 2.5%float init).

Definition ex_move : Node :=
  Eval vm_compute in
    match create_move_to origin false false ex_gen1 with
    | (inr n, _) => n
    | (inl _, _) => mkNode "" origin [] [] []
    end.

Definition ex_gen2 : StateGenerator :=
  Eval vm_compute in snd (create_move_to origin false false ex_gen1).

(** [ex_gen2] after [link_pins(offset, "Result", move, "Position")]. *)
Definition ex_gen3 : StateGenerator :=
  Eval vm_compute in snd (link_pins ex_offset "Result" ex_move "Position"
                                    ex_gen2).


Definition ex_feeder : Node :=
  mkNode "PlayerPos" origin [] [mkPin 3 "Pos" VECTOR2] [].

(** The scan node and the branch node of [create_find_target([100], (0,0))]
    and the generator after it. *)
Definition ex_gen_find : StateGenerator :=
  Eval vm_compute in snd (create_find_target [100] origin 0 init).

Definition ex_finder : Node :=
  Eval vm_compute in nth 0 (nodes ex_gen_find) (mkNode "" origin [] [] []).

Definition ex_check : Node :=
  Eval vm_compute in nth 1 (nodes ex_gen_find) (mkNode "" origin [] [] []).



(** What [Node.to_dict] has written when it reaches [result.update]. *)
Definition structural_record (n : Node) : pydict json :=
  Node_to_dict (mkNode (node_type n) (position n) (in_pins n) (out_pins n) []).

(* ================================================================== *)
(** ** Sequences of factory calls *)

(** One call of a node factory with its arguments. *)
Inductive FactoryCall : Type :=
| CallStartNode (name : string) (position : Position)
| CallSequence (position : Position)
| CallIfNode (position : Position)
| CallPushNode (target_state : string) (position : Position)
| CallWait (wait_time : Z) (position : Position)
| CallEnemyList (enemy_ids : list Z) (position : Position)
                (object_type sort_type : Z) (ignore_invul : bool)
| CallPlayerPos (position : Position)
| CallPoint (x y : float) (position : Position)
| CallPointList (points : list (float * float)) (position : Position)
                (randomize : bool) (switch_distance : float)
| CallMoveTo (position : Position) (teleport teleport_once : bool)
| CallEnterPortal (position : Position)
| CallMapChange (map_name : string) (position : Position)
| CallOperator (position : Position) (operator_type : Z)
               (towards_distance : float)
| CallComparison (position : Position) (comparison_type : Z)
                 (val_to_compare : float)
| CallSavePos (position : Position) (persistent : bool)
| CallUseItem (item_id : Z) (position : Position)
| CallSendMessage (message : string) (position : Position) (delay_ms : Z)
| CallReceivedMessage (from_player content : string) (position : Position)
| CallGroup (position : Position) (epsilon max_dist : float)
| CallHotkey (position : Position)
| CallPlayerCount (position : Position) (exclude_wl : bool)
| CallStatusLevel (position : Position) (status_type : Z)
| CallSwitchServer (position : Position)
| CallConnectToQuest (position : Position) (max_pop : Z)
| CallNexus (position : Position)
| CallResetTileCache (position : Position)
| CallOffsetPos (position : Position) (dist : float).

Definition call_factory (c : FactoryCall) : M Node :=
  match c with
  | CallStartNode name position => create_start_node name position
  | CallSequence position => create_sequence position
  | CallIfNode position => create_if_node position
  | CallPushNode target_state position =>
      create_push_node target_state position
  | CallWait wait_time position => create_wait wait_time position
  | CallEnemyList enemy_ids position object_type sort_type ignore_invul =>
      create_enemy_list enemy_ids position object_type sort_type ignore_invul
  | CallPlayerPos position => create_player_pos position
  | CallPoint x y position => create_point x y position
  | CallPointList points position randomize switch_distance =>
      create_point_list points position randomize switch_distance
  | CallMoveTo position teleport teleport_once =>
      create_move_to position teleport teleport_once
  | CallEnterPortal position => create_enter_portal position
  | CallMapChange map_name position => create_map_change map_name position
  | CallOperator position operator_type towards_distance =>
      create_operator position operator_type towards_distance
  | CallComparison position comparison_type val_to_compare =>
      create_comparison position comparison_type val_to_compare
  | CallSavePos position persistent => create_save_pos position persistent
  | CallUseItem item_id position => create_use_item item_id position
  | CallSendMessage message position delay_ms =>
      create_send_message message position delay_ms
  | CallReceivedMessage from_player content position =>
      create_received_message from_player content position
  | CallGroup position epsilon max_dist =>
      create_group position epsilon max_dist
  | CallHotkey position => create_hotkey position
  | CallPlayerCount position exclude_wl =>
      create_player_count position exclude_wl
  | CallStatusLevel position status_type =>
      create_status_level position status_type
  | CallSwitchServer position => create_switch_server position
  | CallConnectToQuest position max_pop =>
      create_connect_to_quest position max_pop
  | CallNexus position => create_nexus position
  | CallResetTileCache position => create_reset_tile_cache position
  | CallOffsetPos position dist => create_offset_pos position dist
  end.

(** The calls of a list, one after the other, on the same generator. *)
Definition call_factories (calls : list FactoryCall) : M (list Node) :=
  mapM call_factory calls.

(** The pin ids of a node in the order its factory obtained them: the
    [in_pins] argument is evaluated before the [out_pins] argument. *)
Definition node_pin_ids (n : Node) : list Z :=
  map pin_id (in_pins n ++ out_pins n)%list.

(** All pin ids of the graph, in creation order. *)
Definition issued_ids (g : StateGenerator) : list Z :=
  flat_map node_pin_ids (nodes g).

(** The [k] ids that follow the counter value [c]. *)
Fixpoint ids_from (c : Z) (k : nat) : list Z :=
  match k with
  | O => []
  | S k' => (c + 1) :: ids_from (c + 1) k'
  end.

(* ================================================================== *)
(** ** The directed graph of the links *)

(** Node number [i] of the graph has the pin [pid] in its output (input)
    array. *)
Definition owns_out (g : StateGenerator) (i : nat) (pid : Z) : Prop :=
  exists n p, nth_error (nodes g) i = Some n /\ In p (out_pins n)
              /\ pin_id p = pid.

Definition owns_in (g : StateGenerator) (i : nat) (pid : Z) : Prop :=
  exists n p, nth_error (nodes g) i = Some n /\ In p (in_pins n)
              /\ pin_id p = pid.

(** A link leads from the node of its left pin to the node of its right
    pin. *)
Definition link_edge (g : StateGenerator) (a b : nat) : Prop :=
  exists l, In l (links g) /\ owns_out g a (left_pin_id l)
            /\ owns_in g b (right_pin_id l).

(** [b] can be reached from [a] along links, in zero or more steps. *)
Definition reaches (g : StateGenerator) : nat -> nat -> Prop :=
  clos_refl_trans nat (link_edge g).

(** No link closes a cycle: the node of its right pin never reaches the
    node of its left pin. *)
Definition no_cycles (g : StateGenerator) : Prop :=
  forall l a b,
    In l (links g) ->
    owns_out g a (left_pin_id l) -> owns_in g b (right_pin_id l) ->
    ~ reaches g b a.

Definition has_pin_id (pid : Z) (pins : list Pin) : bool :=
  existsb (fun p => pin_id p =? pid) pins.

(** The numbers of the nodes whose array selected by [arr] has [pid]. *)
Fixpoint owners (arr : Node -> list Pin) (pid : Z) (ns : list Node)
    (i : nat) : list nat :=
  match ns with
  | [] => []
  | n :: ns' =>
      if has_pin_id pid (arr n) then i :: owners arr pid ns' (S i)
      else owners arr pid ns' (S i)
  end.

(** [rank] grows strictly along every link. *)
Definition ranked (rank : nat -> nat) (g : StateGenerator) : bool :=
  forallb (fun l =>
    forallb (fun a =>
      forallb (fun b => (rank a <? rank b)%nat)
              (owners in_pins (right_pin_id l) (nodes g) 0))
            (owners out_pins (left_pin_id l) (nodes g) 0))
    (links g).

(** A topological numbering of the thirteen nodes of the beacon search, in
    the order the pattern creates them. *)
Definition beacon_rank (i : nat) : nat :=
  nth i [6; 5; 4; 1; 0; 0; 1; 2; 3; 2; 0; 0; 1]%nat 0%nat.

(** What one factory call does: it takes the next [k] ids from the counter
    for the pins of one new node, in the order inputs then outputs, and
    appends that node; the links are untouched. *)
Definition factory_step (g : StateGenerator) (n : Node)
    (g' : StateGenerator) : Prop :=
  nodes g' = (nodes g ++ [n])%list /\ links g' = links g /\
  exists k, node_pin_ids n = ids_from (current_id g) k /\
            current_id g' = current_id g + Z.of_nat k.

(** Every link goes from a pin of an output array to a pin of an input
    array of registered nodes. *)
Definition links_oriented (g : StateGenerator) : Prop :=
  Forall (fun l => in_some_out_array g (left_pin_id l) /\
                   in_some_in_array g (right_pin_id l)) (links g).

(** A document printer to run [generate] with: the keys of the top-level
    object and the number of its links and nodes. *)
Definition ex_dumps (j : json) : string :=
  match j with
  | JDict d =>
      String.concat ","
        (map (fun kv =>
                match snd kv with
                | JList l => fst kv ++ ":" ++ str_of_int (Z.of_nat (List.length l))
                | _ => fst kv
                end) d)
  | _ => ""
  end.

(* ================================================================== *)
(** ** The remaining patterns of WorkflowBuilder *)

Definition create_portal_entry (position : Position) : M PatternNodes :=
  let '(x, y) := position in
  let result : PatternNodes := [] in
  portal <- create_enter_portal (x, y) ;;
  let result := dict_set result "portal" portal in
  ret result.

(** default: [threshold=10.0] *)
Definition create_distance_check (target_point : float * float)
    (position : Position) (threshold : float) : M PatternNodes :=
  let '(x, y) := position in
  let result : PatternNodes := [] in
  let data_y := (y + DATA_OFFSET)%float in
  player <- create_player_pos ((x + H_SPACE)%float, data_y) ;;
  let result := dict_set result "player" player in
  target <- create_point_list [target_point] (x, data_y) false 1%float ;;
  let result := dict_set result "target" target in
  operator <- create_operator ((x - H_SPACE)%float, data_y) 0 0%float ;;
  let result := dict_set result "operator" operator in
  link_data player "Pos" operator "A" ;;;
  link_data target "Pos" operator "B" ;;;
  comparison <- create_comparison ((x - 2 * H_SPACE)%float, data_y) 2
                                  threshold ;;
  let result := dict_set result "comparison" comparison in
  link_data operator "Distance" comparison "A" ;;;
  check <- create_if_node (x, y) ;;
  let result := dict_set result "check" check in
  link_data comparison "Result" check "Condition" ;;;
  ret result.

(** default: [switch_distance=2.0] *)
Definition create_patrol (waypoints : list (float * float))
    (position : Position) (switch_distance : float) : M PatternNodes :=
  let '(x, y) := position in
  let result : PatternNodes := [] in
  pointlist <- create_point_list waypoints (x, y) false switch_distance ;;
  let result := dict_set result "pointlist" pointlist in
  move <- create_move_to ((x - H_SPACE)%float, y) false false ;;
  let result := dict_set result "move" move in
  link_data pointlist "Pos" move "Position" ;;;
  ret result.

(** [portal_id is not None and portal_id != 0] *)
Definition has_portal (portal_id : option Z) : bool :=
  match portal_id with
  | Some pid => negb (pid =? 0)
  | None => false
  end.

(** default: [enemy_offset_dist=2.5].  [portal_check] is a node exactly
    when [has_portal] holds. *)
Definition create_clear_mobs (enemy_ids : list Z) (portal_id : option Z)
    (patrol_waypoints : list (float * float)) (position : Position)
    (enemy_offset_dist : float) : M PatternNodes :=
  let '(x, y) := position in
  let result : PatternNodes := [] in
  (* depth 0: main execution *)
  start <- create_start_node "clear_mobs" (x, y) ;;
  let result := dict_set result "start" start in
  patrol_move <- create_move_to ((x - H_SPACE)%float, y) false false ;;
  let result := dict_set result "patrol_move" patrol_move in
  patrol_points <- create_point_list patrol_waypoints
                     ((x - H_SPACE)%float, (y + DATA_OFFSET)%float)
                     false 2%float ;;
  let result := dict_set result "patrol_points" patrol_points in
  link_data patrol_points "Pos" patrol_move "Position" ;;;
  branch <-
    match portal_id with
    | Some pid =>
        if has_portal portal_id then
          portal_check <- create_if_node ((x - 2 * H_SPACE)%float, y) ;;
          let result := dict_set result "portal_check" portal_check in
          portal_finder <- create_enemy_list [pid]
                             ((x - 2 * H_SPACE)%float,
                              (y + DATA_OFFSET)%float) 1 0 false ;;
          let result := dict_set result "portal_finder" portal_finder in
          link_data portal_finder "Exists" portal_check "Condition" ;;;
          portal_move <- create_move_to ((x - 3 * H_SPACE)%float, y)
                                        false false ;;
          let result := dict_set result "portal_move" portal_move in
          link_data portal_finder "Pos" portal_move "Position" ;;;
          portal_enter <- create_enter_portal ((x - 4 * H_SPACE)%float, y) ;;
          let result := dict_set result "portal_enter" portal_enter in
          link_data portal_finder "ID" portal_enter "Portal ID" ;;;
          link_exec portal_check "True" portal_move "Out" ;;;
          link_exec portal_move "In" portal_enter "Out" ;;;
          ret (result, Some portal_check)
        else ret (result, None)
    | None => ret (result, None)
    end ;;
  let result := fst branch in
  let portal_check := snd branch in
  let enemy_depth_y := (y + DEPTH_SPACE)%float in
  let enemy_data_y := (y + DEPTH_SPACE / 2)%float in
  (* depth 1: enemy check *)
  enemy_check <- create_if_node ((x - 2 * H_SPACE)%float, enemy_depth_y) ;;
  let result := dict_set result "enemy_check" enemy_check in
  enemy_finder <- create_enemy_list enemy_ids
                    ((x - 2 * H_SPACE)%float, enemy_data_y) 0 0 false ;;
  let result := dict_set result "enemy_finder" enemy_finder in
  link_data enemy_finder "Exists" enemy_check "Condition" ;;;
  enemy_offset <- create_offset_pos ((x - 3 * H_SPACE)%float, enemy_depth_y)
                                    enemy_offset_dist ;;
  let result := dict_set result "enemy_offset" enemy_offset in
  link_data enemy_finder "Pos" enemy_offset "Pos" ;;;
  enemy_move <- create_move_to ((x - 4 * H_SPACE)%float, enemy_depth_y)
                               false false ;;
  let result := dict_set result "enemy_move" enemy_move in
  link_data enemy_offset "Result" enemy_move "Position" ;;;
  patrol_fallback <- create_move_to
                       ((x - 3 * H_SPACE)%float,
                        (enemy_depth_y + DEPTH_SPACE)%float) false false ;;
  let result := dict_set result "patrol_fallback" patrol_fallback in
  link_data patrol_points "Pos" patrol_fallback "Position" ;;;
  (* execution links *)
  link_exec start "In" patrol_move "Out" ;;;
  match portal_check with
  | Some portal_check =>
      link_exec patrol_move "In" portal_check "Out" ;;;
      link_exec portal_check "False" enemy_check "Out"
  | None =>
      link_exec patrol_move "In" enemy_check "Out"
  end ;;;
  link_exec enemy_check "True" enemy_move "Out" ;;;
  link_exec enemy_check "False" patrol_fallback "Out" ;;;
  ret result.

(** The one-node wrappers of the builder. *)
Module Builder.
Definition create_wait (wait_ms : Z) (position : Position)
  : M PatternNodes :=
  let result : PatternNodes := [] in
  wait <- create_wait wait_ms position ;;
  let result := dict_set result "wait" wait in
  ret result.

Definition create_start (name : string) (position : Position) : M Node :=
  create_start_node name position.

Definition create_map_trigger (map_name : string) (position : Position)
  : M Node :=
  create_map_change map_name position.

Definition create_push (target_name : string) (position : Position)
  : M Node :=
  create_push_node target_name position.

Definition create_sequence (position : Position) : M Node :=
  create_sequence position.
End Builder.

(* ================================================================== *)
(** ** add_nexus_handler (StateGenerator) *)

Definition REALM_PORTAL_ID : Z := 1810.
Definition NEXUS_SPAWN_POINT : float * float := (127%float, 170%float).

(** defaults: [base_x=400, base_y=-1400] *)
Definition add_nexus_handler (base_x base_y : float) : M (pydict Node) :=
  map_change <- create_map_change "Nexus" (base_x, base_y) ;;
  wait <- create_wait 500 ((base_x - 200)%float, base_y) ;;
  spawn_point <- create_point (fst NEXUS_SPAWN_POINT) (snd NEXUS_SPAWN_POINT)
                   ((base_x - 400)%float, (base_y + 150)%float) ;;
  move_to_spawn <- create_move_to ((base_x - 400)%float, base_y)
                                  false false ;;
  portal_detector <- create_enemy_list [REALM_PORTAL_ID]
                       ((base_x - 800)%float, (base_y + 100)%float)
                       1 0 false ;;
  if_portal <- create_if_node ((base_x - 600)%float, base_y) ;;
  move_to_portal <- create_move_to ((base_x - 800)%float, base_y)
                                   false false ;;
  enter_portal <- create_enter_portal ((base_x - 1000)%float, base_y) ;;
  (* execution links *)
  link_pins map_change "In" wait "Out" ;;;
  link_pins wait "In" move_to_spawn "Out" ;;;
  link_pins move_to_spawn "In" if_portal "Out" ;;;
  link_pins if_portal "True" move_to_portal "Out" ;;;
  link_pins move_to_portal "In" enter_portal "Out" ;;;
  (* data links *)
  link_pins spawn_point "Pos" move_to_spawn "Position" ;;;
  link_pins portal_detector "Exists" if_portal "Condition" ;;;
  link_pins portal_detector "Pos" move_to_portal "Position" ;;;
  link_pins portal_detector "ID" enter_portal "Portal ID" ;;;
  ret [("map_change", map_change);
       ("wait", wait);
       ("spawn_point", spawn_point);
       ("move_to_spawn", move_to_spawn);
       ("portal_detector", portal_detector);
       ("if_portal", if_portal);
       ("move_to_portal", move_to_portal);
       ("enter_portal", enter_portal)].

(* ================================================================== *)
(** ** Code that also indexes dictionaries

    [d[k]] raises [KeyError] for a missing key.  The code that reads nodes
    back out of a dictionary runs in the monad [Mx], whose exceptions are
    the [ValueError]s of [link_pins] and [KeyError]. *)

Inductive PyError : Type :=
| ValueError (e : LinkError)
| KeyError (key : string).

Definition Mx (A : Type) : Type :=
  StateGenerator -> (PyError + A) * StateGenerator.

Definition retx {A} (a : A) : Mx A := fun g => (inr a, g).

Definition bindx {A B} (m : Mx A) (k : A -> Mx B) : Mx B :=
  fun g =>
    match m g with
    | (inl e, g') => (inl e, g')
    | (inr a, g') => k a g'
    end.

(** A call of a method that can only raise [ValueError]. *)
Definition liftx {A} (m : M A) : Mx A :=
  fun g =>
    match m g with
    | (inl e, g') => (inl (ValueError e), g')
    | (inr a, g') => (inr a, g')
    end.

(** [d[k]] *)
Definition dict_item {V} (d : pydict V) (k : string) : Mx V :=
  fun g =>
    match dict_get k d with
    | Some v => (inr v, g)
    | None => (inl (KeyError k), g)
    end.

Notation "x <~ m ;; k" := (bindx m (fun x => k))
  (at level 61, m at next level, right associativity).
Notation "m ~;; k" := (bindx m (fun _ => k))
  (at level 61, right associativity).

(* ================================================================== *)
(** ** NexusLeavePattern (patterns/nexus_leave.py) *)

(** [NexusLeavePattern._link_exec], on the pattern's [self.nodes]. *)
Definition NexusLeavePattern_link_exec (self_nodes : pydict Node)
    (src_name src_pin tgt_name tgt_pin : string) : Mx unit :=
  src <~ dict_item self_nodes src_name ;;
  tgt <~ dict_item self_nodes tgt_name ;;
  liftx (link_pins src src_pin tgt tgt_pin).

(** [NexusLeavePattern.build]; the result is [self.nodes] after the call. *)
Definition NexusLeavePattern_build (spawn_point : float * float)
    (portal_id : Z) (wait_time : Z) (x y : float) : Mx (pydict Node) :=
  let self_nodes : pydict Node := [] in
  n <~ liftx (create_map_change "Nexus" (x, y)) ;;
  let self_nodes := dict_set self_nodes "map_change" n in
  n <~ liftx (create_wait wait_time ((x - 200)%float, y)) ;;
  let self_nodes := dict_set self_nodes "wait" n in
  n <~ liftx (create_point (fst spawn_point) (snd spawn_point)
                           ((x - 400)%float, (y + 150)%float)) ;;
  let self_nodes := dict_set self_nodes "spawn_point" n in
  n <~ liftx (create_move_to ((x - 400)%float, y) false false) ;;
  let self_nodes := dict_set self_nodes "move_to_spawn" n in
  n <~ liftx (create_enemy_list [portal_id]
                ((x - 800)%float, (y + 100)%float) 1 0 false) ;;
  let self_nodes := dict_set self_nodes "portal_detector" n in
  n <~ liftx (create_if_node ((x - 600)%float, y)) ;;
  let self_nodes := dict_set self_nodes "if_portal" n in
  n <~ liftx (create_move_to ((x - 800)%float, y) false false) ;;
  let self_nodes := dict_set self_nodes "move_to_portal" n in
  n <~ liftx (create_enter_portal ((x - 1000)%float, y)) ;;
  let self_nodes := dict_set self_nodes "enter_portal" n in
  (* links *)
  NexusLeavePattern_link_exec self_nodes "map_change" "In" "wait" "Out" ~;;
  NexusLeavePattern_link_exec self_nodes "wait" "In" "move_to_spawn" "Out" ~;;
  NexusLeavePattern_link_exec self_nodes
    "move_to_spawn" "In" "if_portal" "Out" ~;;
  NexusLeavePattern_link_exec self_nodes
    "if_portal" "True" "move_to_portal" "Out" ~;;
  NexusLeavePattern_link_exec self_nodes
    "move_to_portal" "In" "enter_portal" "Out" ~;;
  a <~ dict_item self_nodes "spawn_point" ;;
  b <~ dict_item self_nodes "move_to_spawn" ;;
  liftx (link_pins a "Pos" b "Position") ~;;
  a <~ dict_item self_nodes "portal_detector" ;;
  b <~ dict_item self_nodes "if_portal" ;;
  liftx (link_pins a "Exists" b "Condition") ~;;
  a <~ dict_item self_nodes "portal_detector" ;;
  b <~ dict_item self_nodes "move_to_portal" ;;
  liftx (link_pins a "Pos" b "Position") ~;;
  a <~ dict_item self_nodes "portal_detector" ;;
  b <~ dict_item self_nodes "enter_portal" ;;
  liftx (link_pins a "ID" b "Portal ID") ~;;
  retx self_nodes.

(** [WorkflowBuilder.create_nexus_leave];
    defaults: [spawn_point=(127.0, 170.0), portal_id=1810, wait_time=500]. *)
Definition create_nexus_leave (position : Position)
    (spawn_point : float * float) (portal_id : Z) (wait_time : Z)
  : Mx PatternNodes :=
  let '(x, y) := position in
  let result : PatternNodes := [] in
  nodes_dict <~ NexusLeavePattern_build spawn_point portal_id wait_time x y ;;
  (* for key, node in nodes_dict.items(): result[key] = node *)
  let result :=
    fold_left (fun acc kv => dict_set acc (fst kv) (snd kv))
              nodes_dict result in
  retx result.

(* ================================================================== *)
(** ** Mutation of a node that the graph shares

    [node.config[key] = value] changes the node object, which
    [self.nodes] of the generator holds as well.  A node made by a factory
    owns at least one pin and pin ids are never issued twice, so the pin ids
    tell which element of [self.nodes] is that object. *)

Fixpoint ids_eqb (a b : list Z) : bool :=
  match a, b with
  | [], [] => true
  | x :: a', y :: b' => (x =? y) && ids_eqb a' b'
  | _, _ => false
  end.

Definition same_object (a b : Node) : bool :=
  ids_eqb (node_pin_ids a) (node_pin_ids b).

Definition config_setitem (node : Node) (key : string) (value : json)
  : M unit :=
  g <- get_gen ;;
  put_gen {| nodes :=
               map (fun n =>
                      if same_object n node then
                        mkNode (node_type n) (position n) (in_pins n)
                               (out_pins n) (dict_set (config n) key value)
                      else n) (nodes g);
             links := links g;
             current_id := current_id g |}.

(* ================================================================== *)
(** ** generators/realm_farmer.py *)

(** [RealmFarmerConfig] after [__post_init__]: every entity is an id. *)
Record RealmFarmerConfig : Type := mkRealmFarmerConfig {
  rf_name : string;
  rf_map_name : string;
  rf_beacon_enemy_id : Z;
  rf_beacon_position : float * float;
  rf_beacon_distance_threshold : float;
  rf_clear_enemy_ids : list Z;
  rf_portal_id : option Z;
  rf_portal_ids : list Z;
  rf_patrol_waypoints : list (float * float);
  rf_enemy_offset_dist : float;
  rf_dungeon_map_name : option string;
  rf_dungeon_boss_id : option Z;
  rf_dungeon_additional_enemies : option (list Z);
  rf_dungeon_exit_portal_id : Z
}.

(** Truth value of an optional integer, of an integer and of an optional
    string in a Python condition. *)
Definition truthy_opt_int (o : option Z) : bool :=
  match o with
  | Some z => negb (z =? 0)
  | None => false
  end.

Definition truthy_int (z : Z) : bool := negb (z =? 0).

Definition truthy_opt_str (o : option string) : bool :=
  match o with
  | Some EmptyString => false
  | Some (String _ _) => true
  | None => false
  end.

(** The dungeon phase of [generate_realm_farmer], entered when the config
    names a dungeon map and a boss. *)
Definition realm_farmer_dungeon_phase (config : RealmFarmerConfig)
    (dungeon_map_name : string) (dungeon_boss : Z) : Mx unit :=
  let dungeon_state := rf_name config ++ "_dungeon" in
  let dungeon_additional :=
    match rf_dungeon_additional_enemies config with
    | Some (e :: es) => e :: es
    | _ => []
    end in
  let dungeon_portal := rf_dungeon_exit_portal_id config in
  let dx := 2000%float in
  let dy := 1200%float in
  (* 1. map trigger -> push to dungeon state *)
  map_dungeon <~ liftx (Builder.create_map_trigger dungeon_map_name
                          (dx, dy)) ;;
  push_dungeon <~ liftx (Builder.create_push dungeon_state
                           ((dx - 200)%float, dy)) ;;
  liftx (link_exec map_dungeon "In" push_dungeon "Out") ~;;
  (* 2. start node of the dungeon state *)
  start_dungeon <~ liftx (Builder.create_start dungeon_state
                            (dx, (dy + 400)%float)) ;;
  (* 3. additional enemies, checked first *)
  entry <~
    match dungeon_additional with
    | _ :: _ =>
        additional_find <~ liftx (create_find_target dungeon_additional
                             ((dx - 200)%float, (dy + 400)%float) 0) ;;
        check <~ dict_item additional_find "check" ;;
        liftx (link_exec start_dungeon "In" check "Out") ~;;
        move_to_additional <~ liftx (create_move_to_target
                                ((dx - 600)%float, (dy + 400)%float)
                                false (Some 2.5%float)) ;;
        check <~ dict_item additional_find "check" ;;
        move <~ dict_item move_to_additional "move" ;;
        liftx (link_exec check "True" move "Out") ~;;
        finder <~ dict_item additional_find "finder" ;;
        offset <~ dict_item move_to_additional "offset" ;;
        liftx (link_data finder "Pos" offset "Pos") ~;;
        check <~ dict_item additional_find "check" ;;
        retx (check, "False")
    | [] => retx (start_dungeon, "In")
    end ;;
  let boss_check_entry_node := fst entry in
  let boss_check_entry_pin := snd entry in
  (* 4. boss check, checked last *)
  boss_find <~ liftx (create_find_target [dungeon_boss]
                        ((dx - 200)%float, (dy + 600)%float) 0) ;;
  check <~ dict_item boss_find "check" ;;
  liftx (link_exec boss_check_entry_node boss_check_entry_pin
                   check "Out") ~;;
  move_to_boss <~ liftx (create_move_to_target
                           ((dx - 600)%float, (dy + 600)%float)
                           false (Some 2.5%float)) ;;
  check <~ dict_item boss_find "check" ;;
  move <~ dict_item move_to_boss "move" ;;
  liftx (link_exec check "True" move "Out") ~;;
  finder <~ dict_item boss_find "finder" ;;
  offset <~ dict_item move_to_boss "offset" ;;
  liftx (link_data finder "Pos" offset "Pos") ~;;
  (* 5. boss gone: exit portal *)
  if truthy_int dungeon_portal then
    exit_find <~ liftx (create_find_target [dungeon_portal]
                          ((dx - 600)%float, (dy + 800)%float) 1) ;;
    check <~ dict_item boss_find "check" ;;
    exit_check <~ dict_item exit_find "check" ;;
    liftx (link_exec check "False" exit_check "Out") ~;;
    move_to_exit <~ liftx (create_move_to_target
                             ((dx - 1000)%float, (dy + 800)%float)
                             false None) ;;
    exit_check <~ dict_item exit_find "check" ;;
    move <~ dict_item move_to_exit "move" ;;
    liftx (link_exec exit_check "True" move "Out") ~;;
    finder <~ dict_item exit_find "finder" ;;
    move <~ dict_item move_to_exit "move" ;;
    liftx (link_data finder "Pos" move "Position") ~;;
    enter_exit <~ liftx (create_portal_entry
                           ((dx - 1200)%float, (dy + 800)%float)) ;;
    move <~ dict_item move_to_exit "move" ;;
    portal <~ dict_item enter_exit "portal" ;;
    liftx (link_exec move "In" portal "Out") ~;;
    finder <~ dict_item exit_find "finder" ;;
    portal <~ dict_item enter_exit "portal" ;;
    liftx (link_data finder "ID" portal "Portal ID")
  else retx tt.

(** The graph construction of [generate_realm_farmer], on the generator of
    the builder the function creates. *)
Definition realm_farmer_build (config : RealmFarmerConfig) : Mx unit :=
  let beacon_state := rf_name config ++ "_beacon" in
  let clear_state := rf_name config ++ "_clear" in
  (* nexus leave *)
  create_nexus_leave (0%float, (-200)%float) (127%float, 170%float)
                     1810 500 ~;;
  (* map trigger: realm -> beacon search *)
  map_realm <~ liftx (Builder.create_map_trigger (rf_map_name config)
                        (1800%float, (-200)%float)) ;;
  push_beacon <~ liftx (Builder.create_push beacon_state
                          (1400%float, (-200)%float)) ;;
  liftx (link_exec map_realm "In" push_beacon "Out") ~;;
  (* beacon search phase *)
  beacon <~ liftx (create_beacon_search (rf_beacon_enemy_id config)
                     (rf_beacon_position config) clear_state
                     (1600%float, 0%float)
                     (rf_beacon_distance_threshold config)) ;;
  start <~ dict_item beacon "start" ;;
  liftx (config_setitem start "nodeName" (JStr beacon_state)) ~;;
  (* clear mobs phase *)
  clear <~ liftx (create_clear_mobs (rf_clear_enemy_ids config)
                    (rf_portal_id config) (rf_patrol_waypoints config)
                    (1600%float, 600%float) (rf_enemy_offset_dist config)) ;;
  start <~ dict_item clear "start" ;;
  liftx (config_setitem start "nodeName" (JStr clear_state)) ~;;
  (* dungeon phase *)
  match rf_dungeon_map_name config, rf_dungeon_boss_id config with
  | Some dungeon_map_name, Some dungeon_boss =>
      if truthy_opt_str (rf_dungeon_map_name config)
         && truthy_opt_int (rf_dungeon_boss_id config)
      then realm_farmer_dungeon_phase config dungeon_map_name dungeon_boss
      else retx tt
  | _, _ => retx tt
  end.

(** [generate_realm_farmer]: a new builder, the construction, and the text
    that [save] writes to the output file. *)
Definition generate_realm_farmer (json_dumps : json -> string)
    (config : RealmFarmerConfig) : (PyError + string) * StateGenerator :=
  (realm_farmer_build config ~;; liftx (generate json_dumps)) init.

(* ================================================================== *)
(** ** generators/dungeon_farmer.py *)

(** The fields of [DungeonFarmerConfig] that [generate_dungeon_farmer]
    reads, after [__post_init__]. *)
Record DungeonFarmerConfig : Type := mkDungeonFarmerConfig {
  df_name : string;
  df_realm_map_name : string;
  df_portal_dropper_id : option Z;
  df_portal_id : option Z;
  df_dungeon_map_name : string;
  df_dungeon_clear_enemies : list Z;
  df_boss_id : option Z
}.

(** [x in xs] for integers. *)
Definition int_in (x : Z) (xs : list Z) : bool := existsb (Z.eqb x) xs.

Definition dungeon_farmer_build (config : DungeonFarmerConfig) : Mx unit :=
  (* realm phase *)
  map_realm <~ liftx (Builder.create_map_trigger (df_realm_map_name config)
                        (0%float, 0%float)) ;;
  match df_portal_dropper_id config with
  | Some dropper_id =>
      if truthy_opt_int (df_portal_dropper_id config) then
        dropper_find <~ liftx (create_find_target [dropper_id]
                                 ((-200)%float, 0%float) 0) ;;
        move_to_dropper <~ liftx (create_move_to_target
                                    ((-600)%float, 0%float)
                                    false (Some 2.5%float)) ;;
        portal_find <~ liftx (create_find_target
                                (match df_portal_id config with
                                 | Some pid =>
                                     if truthy_opt_int (df_portal_id config)
                                     then [pid] else [1815]
                                 | None => [1815]
                                 end)
                                ((-800)%float, 0%float) 1) ;;
        move_to_portal <~ liftx (create_move_to_target
                                   ((-1200)%float, 0%float) false None) ;;
        enter_portal <~ liftx (create_portal_entry
                                 ((-1400)%float, 0%float)) ;;
        check <~ dict_item dropper_find "check" ;;
        liftx (link_exec map_realm "In" check "Out") ~;;
        check <~ dict_item dropper_find "check" ;;
        move <~ dict_item move_to_dropper "move" ;;
        liftx (link_exec check "True" move "Out") ~;;
        finder <~ dict_item dropper_find "finder" ;;
        offset <~ dict_item move_to_dropper "offset" ;;
        liftx (link_data finder "Pos" offset "Pos") ~;;
        move <~ dict_item move_to_dropper "move" ;;
        check <~ dict_item portal_find "check" ;;
        liftx (link_exec move "In" check "Out") ~;;
        check <~ dict_item portal_find "check" ;;
        move <~ dict_item move_to_portal "move" ;;
        liftx (link_exec check "True" move "Out") ~;;
        finder <~ dict_item portal_find "finder" ;;
        move <~ dict_item move_to_portal "move" ;;
        liftx (link_data finder "Pos" move "Position") ~;;
        move <~ dict_item move_to_portal "move" ;;
        portal <~ dict_item enter_portal "portal" ;;
        liftx (link_exec move "In" portal "Out") ~;;
        finder <~ dict_item portal_find "finder" ;;
        portal <~ dict_item enter_portal "portal" ;;
        liftx (link_data finder "ID" portal "Portal ID")
      else retx tt
  | None => retx tt
  end ~;;
  (* dungeon phase *)
  map_dungeon <~ liftx (Builder.create_map_trigger
                          (df_dungeon_map_name config)
                          (0%float, 600%float)) ;;
  let all_dungeon_enemies := df_dungeon_clear_enemies config in
  let all_dungeon_enemies :=
    match df_boss_id config with
    | Some boss_id =>
        if truthy_opt_int (df_boss_id config)
           && negb (int_in boss_id all_dungeon_enemies)
        then (all_dungeon_enemies ++ [boss_id])%list
        else all_dungeon_enemies
    | None => all_dungeon_enemies
    end in
  match all_dungeon_enemies with
  | _ :: _ =>
      dungeon_find <~ liftx (create_find_target all_dungeon_enemies
                               ((-200)%float, 600%float) 0) ;;
      move_to_enemy <~ liftx (create_move_to_target
                                ((-600)%float, 600%float)
                                false (Some 2.5%float)) ;;
      check <~ dict_item dungeon_find "check" ;;
      liftx (link_exec map_dungeon "In" check "Out") ~;;
      check <~ dict_item dungeon_find "check" ;;
      move <~ dict_item move_to_enemy "move" ;;
      liftx (link_exec check "True" move "Out") ~;;
      finder <~ dict_item dungeon_find "finder" ;;
      offset <~ dict_item move_to_enemy "offset" ;;
      liftx (link_data finder "Pos" offset "Pos")
  | [] => retx tt
  end.

Definition generate_dungeon_farmer (json_dumps : json -> string)
    (config : DungeonFarmerConfig) : (PyError + string) * StateGenerator :=
  (dungeon_farmer_build config ~;; liftx (generate json_dumps)) init.

(* ================================================================== *)
(** ** A computed layering of the link graph *)

(** The node pairs joined by a link, left-pin node first. *)
Definition graph_edges (g : StateGenerator) : list (nat * nat) :=
  flat_map (fun l =>
              list_prod (owners out_pins (left_pin_id l) (nodes g) 0)
                        (owners in_pins (right_pin_id l) (nodes g) 0))
           (links g).

(** One round of longest-path relaxation over the edges. *)
Definition relax (edges : list (nat * nat)) (rank : list nat) : list nat :=
  map (fun b =>
         fold_left (fun acc e =>
                      if (snd e =? b)%nat
                      then Nat.max acc (S (nth (fst e) rank 0%nat))
                      else acc) edges 0%nat)
      (seq 0 (List.length rank)).

(** The ranks after as many rounds as there are nodes. *)
Definition rank_table (g : StateGenerator) : list nat :=
  let edges := graph_edges g in
  let n := List.length (nodes g) in
  Nat.iter n (relax edges) (repeat 0%nat n).

(** The table is a layering: every link goes up in it. *)
Definition layered (g : StateGenerator) : bool :=
  let table := rank_table g in
  ranked (fun i => nth i table 0%nat) g.

(** Every link joins ids the counter has already passed. *)
Definition links_issued (g : StateGenerator) : Prop :=
  Forall (fun l => left_pin_id l <= current_id g /\
                   right_pin_id l <= current_id g) (links g).

(** What a pattern does to a generator: it appends [new_nodes], whose pins
    carry the [n_ids] ids that follow the counter, and appends [n_links]
    links, each between two of those new ids; nothing that was there
    changes. *)
Definition pattern_effect (g g' : StateGenerator) (new_nodes : list Node)
    (n_links : nat) (n_ids : nat) : Prop :=
  nodes g' = (nodes g ++ new_nodes)%list /\
  flat_map node_pin_ids new_nodes = ids_from (current_id g) n_ids /\
  current_id g' = current_id g + Z.of_nat n_ids /\
  exists new_links,
    links g' = (links g ++ new_links)%list /\
    List.length new_links = n_links /\
    Forall (fun l => current_id g < left_pin_id l <= current_id g' /\
                     current_id g < right_pin_id l <= current_id g')
           new_links.

(** Every link has a node with its left pin among the outputs and a node
    with its right pin among the inputs. *)
Definition oriented_check (g : StateGenerator) : bool :=
  forallb (fun l =>
             negb (match owners out_pins (left_pin_id l) (nodes g) 0 with
                   | [] => true | _ :: _ => false end)
             && negb (match owners in_pins (right_pin_id l) (nodes g) 0 with
                      | [] => true | _ :: _ => false end))
          (links g).

(** The dungeon phase of the realm farmer is built. *)
Definition rf_has_dungeon (config : RealmFarmerConfig) : bool :=
  truthy_opt_str (rf_dungeon_map_name config)
  && truthy_opt_int (rf_dungeon_boss_id config).

(** The additional enemies of the dungeon phase are checked. *)
Definition rf_has_additional (config : RealmFarmerConfig) : bool :=
  match rf_dungeon_additional_enemies config with
  | Some (_ :: _) => true
  | _ => false
  end.

Definition rf_node_count (config : RealmFarmerConfig) : nat :=
  (23 + (if has_portal (rf_portal_id config) then 12 else 8)
   + (if rf_has_dungeon config then
        7 + (if rf_has_additional config then 4 else 0)
          + (if truthy_int (rf_dungeon_exit_portal_id config) then 4 else 0)
      else 0))%nat.

(** The state names that the Start nodes of a graph declare, and the state
    names that its PushNode nodes call, in node order. *)
Definition start_names (g : StateGenerator) : list string :=
  flat_map (fun n =>
              if String.eqb (node_type n) (NodeType_value START) then
                match dict_get "nodeName" (config n) with
                | Some (JStr s) => [s]
                | _ => []
                end
              else []) (nodes g).

Definition push_targets (g : StateGenerator) : list string :=
  flat_map (fun n =>
              if String.eqb (node_type n) (NodeType_value PUSH_NODE) then
                match dict_get "name" (config n) with
                | Some (JStr s) => [s]
                | _ => []
                end
              else []) (nodes g).

(** The realm phase of the dungeon farmer is built. *)
Definition df_has_dropper (config : DungeonFarmerConfig) : bool :=
  truthy_opt_int (df_portal_dropper_id config).

(** The dungeon farmer has enemies to scan for: a clear list that is not
    empty, or a boss. *)
Definition df_has_enemies (config : DungeonFarmerConfig) : bool :=
  match df_dungeon_clear_enemies config with
  | _ :: _ => true
  | [] => truthy_opt_int (df_boss_id config)
  end.

Definition df_node_count (config : DungeonFarmerConfig) : nat :=
  (2 + (if df_has_dropper config then 8 else 0)
     + (if df_has_enemies config then 4 else 0))%nat.


(* ================================================================== *)
(** * Properties of link_pins *)

Local Open Scope list_scope.

Lemma find_pin_some (name : string) (pins : list Pin) (p : Pin) :
  find_pin name pins = Some p -> In p pins /\ pin_name p = name.
Proof.
  unfold find_pin. intros H. apply find_some in H. destruct H as [Hin Hn].
  split; [exact Hin | now apply String.eqb_eq].
Qed.

Lemma find_pin_none (name : string) (pins : list Pin) :
  find_pin name pins = None <-> forall p, In p pins -> pin_name p <> name.
Proof.
  unfold find_pin. split.
  - intros H p Hin Hn. apply (find_none _ _ H) in Hin.
    apply String.eqb_eq in Hn. congruence.
  - intros H. induction pins as [|q pins IH]; [reflexivity|]. simpl.
    destruct (String.eqb_spec (pin_name q) name) as [E|E].
    + exfalso. apply (H q); [now left | exact E].
    + apply IH. intros p Hp. apply H. now right.
Qed.

Lemma PinType_eqb_spec (a b : PinType) : reflect (a = b) (PinType_eqb a b).
Proof. destruct a, b; simpl; constructor; congruence. Qed.

Lemma link_present_true (l r : Z) (ls : list Link) :
  link_present l r ls = true <-> In (mkLink l r) ls.
Proof.
  unfold link_present. rewrite existsb_exists. split.
  - intros [[l' r'] [Hin H]]. simpl in H.
    apply andb_true_iff in H. destruct H as [H1 H2].
    apply Z.eqb_eq in H1, H2. now subst.
  - intros Hin. exists (mkLink l r). split; [exact Hin|]. simpl.
    now rewrite !Z.eqb_refl.
Qed.

(** What [link_pins] does once both pins are resolved, as a function of the
    two resolutions. *)
Lemma link_pins_resolved (s t : Node) (sn tn : string) (sp tp : Pin)
    (so to : bool) (g : StateGenerator) :
  find_source_pin s sn = (Some sp, so) ->
  find_target_pin t tn = (Some tp, to) ->
  link_pins s sn t tn g =
    if negb (PinType_eqb (pin_type sp) (pin_type tp)) then
      (inl (TypeMismatch sp tp), g)
    else if so && negb to then
      if link_present (pin_id sp) (pin_id tp) (links g) then
        (inl (DuplicateLink sp tp), g)
      else (inr tt, {| nodes := nodes g;
                       links := links g ++ [mkLink (pin_id sp) (pin_id tp)];
                       current_id := current_id g |})
    else if negb so && to then
      if link_present (pin_id tp) (pin_id sp) (links g) then
        (inl (DuplicateLink sp tp), g)
      else (inr tt, {| nodes := nodes g;
                       links := links g ++ [mkLink (pin_id tp) (pin_id sp)];
                       current_id := current_id g |})
    else (inl (InvalidLinkShape sn tn so to), g).
Proof.
  intros Hs Ht. unfold link_pins. rewrite Hs, Ht.
  destruct (negb (PinType_eqb (pin_type sp) (pin_type tp))); [reflexivity|].
  destruct so, to; simpl; unfold bind, get_gen, raise, links_append, put_gen;
    simpl; try reflexivity.
  - destruct (link_present _ _ _); reflexivity.
  - destruct (link_present _ _ _); reflexivity.
Qed.

Lemma link_pins_unresolved (s t : Node) (sn tn : string)
    (g : StateGenerator) :
  fst (find_source_pin s sn) = None \/ fst (find_target_pin t tn) = None ->
  link_pins s sn t tn g = (inl (PinNotFound sn tn), g).
Proof.
  unfold link_pins.
  destruct (find_source_pin s sn) as [[sp|] so],
           (find_target_pin t tn) as [[tp|] to]; simpl;
    intros [H|H]; try discriminate; reflexivity.
Qed.

Lemma find_source_pin_located (s : Node) (sn : string) (p : Pin) (o : bool) :
  find_source_pin s sn = (Some p, o) ->
  In p (if o then out_pins s else in_pins s) /\ pin_name p = sn.
Proof.
  unfold find_source_pin.
  destruct (find_pin sn (out_pins s)) eqn:Eo.
  - intros H. inversion H; subst. now apply find_pin_some.
  - destruct (find_pin sn (in_pins s)) eqn:Ei; intros H; inversion H; subst.
    now apply find_pin_some.
Qed.

Lemma find_target_pin_located (t : Node) (tn : string) (p : Pin) (o : bool) :
  find_target_pin t tn = (Some p, o) ->
  In p (if o then out_pins t else in_pins t) /\ pin_name p = tn.
Proof.
  unfold find_target_pin.
  destruct (find_pin tn (in_pins t)) eqn:Ei.
  - intros H. inversion H; subst. now apply find_pin_some.
  - destruct (find_pin tn (out_pins t)) eqn:Eo; intros H; inversion H; subst.
    now apply find_pin_some.
Qed.

(** A call either raises and leaves the generator as it was, or appends one
    link built from the two resolved pins. *)
Lemma link_pins_cases (s t : Node) (sn tn : string) (g : StateGenerator) :
  (exists e, link_pins s sn t tn g = (inl e, g)) \/
  (exists sp tp so,
      find_source_pin s sn = (Some sp, so) /\
      find_target_pin t tn = (Some tp, negb so) /\
      pin_type sp = pin_type tp /\
      let lp := if so then sp else tp in
      let rp := if so then tp else sp in
      link_present (pin_id lp) (pin_id rp) (links g) = false /\
      link_pins s sn t tn g =
        (inr tt, {| nodes := nodes g;
                    links := links g ++ [mkLink (pin_id lp) (pin_id rp)];
                    current_id := current_id g |})).
Proof.
  destruct (find_source_pin s sn) as [[sp|] so] eqn:Hs;
    [| left; eexists; apply link_pins_unresolved; rewrite Hs; now left].
  destruct (find_target_pin t tn) as [[tp|] to] eqn:Ht;
    [| left; eexists; apply link_pins_unresolved; rewrite Ht; now right].
  rewrite (link_pins_resolved _ _ _ _ _ _ _ _ g Hs Ht).
  destruct (PinType_eqb_spec (pin_type sp) (pin_type tp)) as [Ety|Ety];
    simpl; [| left; eexists; reflexivity].
  destruct so, to; simpl; try (left; eexists; reflexivity).
  - destruct (link_present _ _ _) eqn:Ed; [left; eexists; reflexivity|].
    right. exists sp, tp, true. simpl. rewrite Ed. auto.
  - destruct (link_present _ _ _) eqn:Ed; [left; eexists; reflexivity|].
    right. exists sp, tp, false. simpl. rewrite Ed. auto.
Qed.


(** C2. A call whose resolved, type-checked and oriented pin pair is
    already in [self.links] raises the duplicate-link error; every call that
    raises, with whichever of the four errors, leaves nodes, links and the id
    counter exactly as they were; so repeating a successful call fails with
    the duplicate-link error and adds nothing. *)
Theorem link_pins_duplicate_and_atomic :
  (forall (g : StateGenerator) (s t : Node) (sn tn : string)
          (sp tp : Pin) (so : bool),
      find_source_pin s sn = (Some sp, so) ->
      find_target_pin t tn = (Some tp, negb so) ->
      pin_type sp = pin_type tp ->
      In (if so then mkLink (pin_id sp) (pin_id tp)
          else mkLink (pin_id tp) (pin_id sp)) (links g) ->
      link_pins s sn t tn g = (inl (DuplicateLink sp tp), g)) /\
  (forall (g g' : StateGenerator) (s t : Node) (sn tn : string)
          (e : LinkError),
      link_pins s sn t tn g = (inl e, g') ->
      nodes g' = nodes g /\ links g' = links g /\
      current_id g' = current_id g) /\
  (forall (g g' : StateGenerator) (s t : Node) (sn tn : string),
      link_pins s sn t tn g = (inr tt, g') ->
      exists sp tp,
        link_pins s sn t tn g' = (inl (DuplicateLink sp tp), g')).
Proof.
  split; [|split].
  - intros g s t sn tn sp tp so Hs Ht Hty Hin.
    rewrite (link_pins_resolved _ _ _ _ _ _ _ _ g Hs Ht).
    destruct (PinType_eqb_spec (pin_type sp) (pin_type tp)); [|contradiction].
    destruct so; apply link_present_true in Hin; simpl; now rewrite Hin.
  - intros g g' s t sn tn e Hrun.
    destruct (link_pins_cases s t sn tn g) as [[e' He] | H].
    + rewrite He in Hrun. inversion Hrun; subst. auto.
    + destruct H as (sp & tp & so & _ & _ & _ & _ & Hlink).
      rewrite Hlink in Hrun. discriminate.
  - intros g g' s t sn tn Hrun.
    destruct (link_pins_cases s t sn tn g) as [[e' He] | H];
      [rewrite He in Hrun; discriminate|].
    destruct H as (sp & tp & so & Hs & Ht & Hty & _ & Hlink).
    rewrite Hlink in Hrun. inversion Hrun; subst g'; clear Hrun.
    exists sp, tp.
    rewrite (link_pins_resolved _ _ _ _ _ _ _ _ _ Hs Ht).
    destruct (PinType_eqb_spec (pin_type sp) (pin_type tp)); [|contradiction].
    simpl.
    assert (Hp : forall l r ls, link_present l r (ls ++ [mkLink l r]) = true)
      by (intros; apply link_present_true, in_or_app; right; now left).
    destruct so; simpl; now rewrite Hp.
Qed.

Lemma link_pins_duplicate_and_atomic_witness :
  link_pins ex_offset "Result" ex_move "Position" ex_gen3 =
    (inl (DuplicateLink (mkPin 50002 "Result" VECTOR2)
                        (mkPin 50004 "Position" VECTOR2)), ex_gen3) /\
  (nodes ex_gen3 = nodes ex_gen3 /\ links ex_gen3 = links ex_gen3 /\
   current_id ex_gen3 = current_id ex_gen3) /\
  (exists sp tp,
      link_pins ex_offset "Result" ex_move "Position" ex_gen3 =
        (inl (DuplicateLink sp tp), ex_gen3)).
Proof.
  destruct link_pins_duplicate_and_atomic as (Hdup & Hatomic & Htwice).
  split; [|split].
  - apply (Hdup ex_gen3 ex_offset ex_move "Result" "Position" _ _ true);
      [reflexivity | reflexivity | reflexivity | simpl; now left].
  - apply (Hatomic ex_gen3 ex_gen3 ex_offset ex_move "Result" "Position"
             (DuplicateLink (mkPin 50002 "Result" VECTOR2)
                            (mkPin 50004 "Position" VECTOR2))).
    reflexivity.
  - apply (Htwice ex_gen2 ex_gen3 ex_offset ex_move "Result" "Position").
    reflexivity.
Defined.







(** C8. When the two resolved pins have different pin types the call raises
    the type-mismatch error and the generator is unchanged, whatever arrays
    the pins came from and whichever argument supplied which; a call that
    succeeds has linked two pins of the same type. *)
Theorem link_pins_type_mismatch
    (g : StateGenerator) (s t : Node) (sn tn : string) :
  (forall sp tp so to,
      find_source_pin s sn = (Some sp, so) ->
      find_target_pin t tn = (Some tp, to) ->
      pin_type sp <> pin_type tp ->
      link_pins s sn t tn g = (inl (TypeMismatch sp tp), g)) /\
  (forall sp tp so to,
      find_source_pin t tn = (Some sp, so) ->
      find_target_pin s sn = (Some tp, to) ->
      pin_type sp <> pin_type tp ->
      link_pins t tn s sn g = (inl (TypeMismatch sp tp), g)) /\
  (forall g',
      link_pins s sn t tn g = (inr tt, g') ->
      exists sp tp so,
        find_source_pin s sn = (Some sp, so) /\
        find_target_pin t tn = (Some tp, negb so) /\
        pin_type sp = pin_type tp).
Proof.
  assert (H : forall a b an bn sp tp so to,
             find_source_pin a an = (Some sp, so) ->
             find_target_pin b bn = (Some tp, to) ->
             pin_type sp <> pin_type tp ->
             link_pins a an b bn g = (inl (TypeMismatch sp tp), g)).
  { intros a b an bn sp tp so to Hs Ht Hty.
    rewrite (link_pins_resolved _ _ _ _ _ _ _ _ g Hs Ht).
    destruct (PinType_eqb_spec (pin_type sp) (pin_type tp));
      [contradiction | reflexivity]. }
  split; [|split].
  - apply H.
  - apply H.
  - intros g' Hrun.
    destruct (link_pins_cases s t sn tn g) as [[e He] | Hc];
      [rewrite He in Hrun; discriminate|].
    destruct Hc as (sp & tp & so & Hs & Ht & Hty & _).
    exists sp, tp, so. auto.
Qed.

Lemma link_pins_type_mismatch_witness :
  link_pins ex_finder "Pos" ex_check "Condition" ex_gen_find =
    (inl (TypeMismatch (mkPin 50001 "Pos" VECTOR2)
                       (mkPin 50006 "Condition" BOOLEAN)), ex_gen_find) /\
  link_pins ex_check "Condition" ex_finder "Pos" ex_gen_find =
    (inl (TypeMismatch (mkPin 50006 "Condition" BOOLEAN)
                       (mkPin 50001 "Pos" VECTOR2)), ex_gen_find) /\
  (exists sp tp so,
      find_source_pin ex_offset "Result" = (Some sp, so) /\
      find_target_pin ex_move "Position" = (Some tp, negb so) /\
      pin_type sp = pin_type tp).
Proof.
  destruct (link_pins_type_mismatch ex_gen_find ex_finder ex_check
              "Pos" "Condition") as (H1 & H2 & _).
  destruct (link_pins_type_mismatch ex_gen2 ex_offset ex_move
              "Result" "Position") as (_ & _ & H3).
  split; [|split].
  - apply (H1 _ _ true false); [reflexivity | reflexivity | discriminate].
  - apply (H2 _ _ false true); [reflexivity | reflexivity | discriminate].
  - apply (H3 ex_gen3). reflexivity.
Defined.

(* ================================================================== *)
(** * Properties of the serializer *)

Section DictFacts.
Context {V : Type}.
Implicit Types (d : pydict V) (k : string) (v : V).

Lemma dict_get_set_same d k v : dict_get k (dict_set d k v) = Some v.
Proof.
  induction d as [|[k' v'] d IH]; simpl.
  - now rewrite String.eqb_refl.
  - destruct (String.eqb k' k) eqn:E; simpl; rewrite E; auto.
Qed.

Lemma dict_get_set_other d k k' v :
  k' <> k -> dict_get k' (dict_set d k v) = dict_get k' d.
Proof.
  intros Hne. induction d as [|[k0 v0] d IH]; simpl.
  - destruct (String.eqb_spec k k'); [congruence | reflexivity].
  - destruct (String.eqb_spec k0 k) as [->|E]; simpl.
    + destruct (String.eqb_spec k k'); [congruence | reflexivity].
    + now rewrite IH.
Qed.

Lemma dict_get_none_keys d k :
  dict_get k d = None <-> ~ In k (dict_keys d).
Proof.
  induction d as [|[k' v'] d IH]; simpl; [tauto|].
  destruct (String.eqb_spec k' k) as [->|E].
  - split; [discriminate | intros H; exfalso; apply H; now left].
  - rewrite IH. tauto.
Qed.

Lemma dict_keys_set d k v :
  dict_keys (dict_set d k v) =
    if in_dec string_dec k (dict_keys d) then dict_keys d
    else dict_keys d ++ [k].
Proof.
  induction d as [|[k' v'] d IH]; simpl; [reflexivity|].
  destruct (String.eqb_spec k' k) as [->|E]; simpl.
  - destruct (string_dec k k); [|congruence].
    reflexivity.
  - destruct (string_dec k' k); [congruence|].
    unfold dict_keys in *. rewrite IH.
    destruct (in_dec string_dec k (map fst d)); reflexivity.
Qed.

Lemma dict_wf_set d k v : dict_wf d -> dict_wf (dict_set d k v).
Proof.
  unfold dict_wf. rewrite dict_keys_set.
  destruct (in_dec string_dec k (dict_keys d)) as [Hin|Hnin]; [auto|].
  intros Hnd. apply NoDup_app; auto.
  - constructor; [intros []| constructor].
  - intros x Hx [<-|[]]. contradiction.
Qed.

Lemma dict_wf_update d other : dict_wf d -> dict_wf (dict_update d other).
Proof.
  unfold dict_update. revert d.
  induction other as [|[k v] o IH]; simpl; intros d Hd; [exact Hd|].
  apply IH, dict_wf_set, Hd.
Qed.

(** [d.update(other)]: a key of [other] takes [other]'s value, any other
    key keeps the value it had in [d]. *)
Lemma dict_get_update d other k :
  dict_wf other ->
  dict_get k (dict_update d other) =
    match dict_get k other with
    | Some v => Some v
    | None => dict_get k d
    end.
Proof.
  unfold dict_update, dict_wf. revert d.
  induction other as [|[k' v'] o IH]; simpl; intros d Hwf; [reflexivity|].
  inversion Hwf as [|? ? Hnin Hnd]; subst.
  rewrite (IH _ Hnd).
  destruct (String.eqb_spec k' k) as [->|E].
  - apply dict_get_none_keys in Hnin. rewrite Hnin.
    apply dict_get_set_same.
  - destruct (dict_get k o); [reflexivity|].
    apply dict_get_set_other. congruence.
Qed.
End DictFacts.

Lemma structural_record_wf (n : Node) : dict_wf (structural_record n).
Proof.
  unfold dict_wf, structural_record, Node_to_dict, dict_update. simpl.
  destruct (in_pins n), (out_pins n); simpl;
    repeat constructor; simpl; intuition discriminate.
Qed.

Lemma Node_to_dict_update (n : Node) :
  Node_to_dict n = dict_update (structural_record n) (config n).
Proof. reflexivity. Qed.

Lemma Node_to_dict_get (n : Node) (k : string) :
  dict_wf (config n) ->
  dict_get k (Node_to_dict n) =
    match dict_get k (config n) with
    | Some v => Some v
    | None => dict_get k (structural_record n)
    end.
Proof. intros Hwf. rewrite Node_to_dict_update. now apply dict_get_update. Qed.



Section SerializerFacts.
Variable json_dumps : json -> string.

(** C6, with the field names the code writes.  The document is the
    object with the keys ["links"], ["nodes"], ["version"], the last being
    the string "1.0"; a link record is the integer pair under
    ["leftPinID"] and ["rightPinID"]; a node record has its kind tag under
    ["nodeType"] and its position as the object of the floats [x] and [y]
    under ["position"], provided its config does not use these two keys. *)
Theorem generate_wire_format (g : StateGenerator) :
  generate json_dumps g = (inr (json_dumps (JDict (document g))), g) /\
  dict_keys (document g) = ["links"; "nodes"; "version"] /\
  dict_get "version" (document g) = Some (JStr "1.0") /\
  dict_get "links" (document g) =
    Some (JList (map (fun l =>
                        JDict [("leftPinID", JInt (left_pin_id l));
                               ("rightPinID", JInt (right_pin_id l))])
                     (links g))) /\
  dict_get "nodes" (document g) =
    Some (JList (map (fun n => JDict (Node_to_dict n)) (nodes g))) /\
  (forall n, In n (nodes g) -> dict_wf (config n) ->
     (dict_get "nodeType" (config n) = None ->
      dict_get "nodeType" (Node_to_dict n) = Some (JStr (node_type n))) /\
     (dict_get "position" (config n) = None ->
      dict_get "position" (Node_to_dict n) =
        Some (JDict [("x", JFloat (fst (position n)));
                     ("y", JFloat (snd (position n)))]))).
Proof.
  do 5 (split; [reflexivity|]).
  intros n _ Hwf.
  split; intros Hk; rewrite (Node_to_dict_get n _ Hwf), Hk;
    unfold structural_record, Node_to_dict; simpl;
    destruct (in_pins n), (out_pins n); reflexivity.
Qed.

(** C9. [generate] returns a document and leaves the generator as it was,
    so a second call on the same generator returns the same text; the text
    depends on the nodes and the links only. *)
Theorem generate_twice_identical (g : StateGenerator) :
  exists doc,
    generate json_dumps g = (inr doc, g) /\
    generate json_dumps (snd (generate json_dumps g)) = (inr doc, g) /\
    (forall g', nodes g' = nodes g -> links g' = links g ->
                fst (generate json_dumps g') = inr doc).
Proof.
  exists (json_dumps (JDict (document g))).
  split; [reflexivity | split; [reflexivity|]].
  intros g' Hn Hl. unfold generate, bind, get_gen, ret, document. simpl.
  now rewrite Hn, Hl.
Qed.
End SerializerFacts.

Lemma generate_wire_format_witness :
  dict_get "nodeType" (Node_to_dict ex_offset) = Some (JStr "OffsetPos") /\
  dict_get "position" (Node_to_dict ex_offset) =
    Some (JDict [("x", JFloat 0); ("y", JFloat 0)]).
Proof.
  destruct (generate_wire_format (fun _ => EmptyString) ex_gen3)
    as (_ & _ & _ & _ & _ & H).
  destruct (H ex_offset) as [Hk Hp].
  - simpl. now left.
  - unfold dict_wf. simpl. repeat constructor. simpl. tauto.
  - split; [apply Hk | apply Hp]; reflexivity.
Defined.

(** C6 as stated fails on the field names: in the document of a graph with
    one link and two nodes, the link record has no field [leftPinId] or
    [rightPinId] and the node record has no field [kind]; the code writes
    [leftPinID], [rightPinID] and [nodeType]. *)
Lemma wire_field_names_counterexample :
  document ex_gen3 =
    [("links", JList [JDict (Link_to_dict (mkLink 50002 50004))]);
     ("nodes", JList [JDict (Node_to_dict ex_offset);
                      JDict (Node_to_dict ex_move)]);
     ("version", JStr "1.0")] /\
  dict_get "leftPinId" (Link_to_dict (mkLink 50002 50004)) = None /\
  dict_get "rightPinId" (Link_to_dict (mkLink 50002 50004)) = None /\
  dict_get "kind" (Node_to_dict ex_offset) = None /\
  dict_get "kind" (Node_to_dict ex_move) = None /\
  dict_keys (Link_to_dict (mkLink 50002 50004)) =
    ["leftPinID"; "rightPinID"] /\
  dict_keys (Node_to_dict ex_offset) =
    ["nodeType"; "position"; "inPins"; "outPins"; "offsetDist"].
Proof. repeat split; reflexivity. Qed.

(* ================================================================== *)
(** * Properties of the patterns *)

Lemma has_pin_id_true (pid : Z) (pins : list Pin) :
  has_pin_id pid pins = true <-> exists p, In p pins /\ pin_id p = pid.
Proof.
  unfold has_pin_id. rewrite existsb_exists.
  split; intros [p [Hin H]]; exists p; split; auto; now apply Z.eqb_eq.
Qed.

Lemma owners_complete (arr : Node -> list Pin) (pid : Z) (ns : list Node) :
  forall (base i : nat) (n : Node) (p : Pin),
    nth_error ns i = Some n -> In p (arr n) -> pin_id p = pid ->
    In (base + i)%nat (owners arr pid ns base).
Proof.
  induction ns as [|m ns IH]; intros base i n p Hnth Hin Hid.
  - destruct i; discriminate.
  - destruct i as [|i]; simpl in *.
    + inversion Hnth; subst m.
      assert (E : has_pin_id pid (arr n) = true)
        by (apply has_pin_id_true; eauto).
      rewrite E, Nat.add_0_r. now left.
    + specialize (IH (S base) i n p Hnth Hin Hid).
      replace (base + S i)%nat with (S base + i)%nat by lia.
      destruct (has_pin_id pid (arr m)); [right|]; exact IH.
Qed.

Lemma ranked_edge (rank : nat -> nat) (g : StateGenerator) :
  ranked rank g = true ->
  forall l a b,
    In l (links g) ->
    owns_out g a (left_pin_id l) -> owns_in g b (right_pin_id l) ->
    (rank a < rank b)%nat.
Proof.
  unfold ranked. intros Hr l a b Hl (n & p & Hn & Hp & Hid)
                         (m & q & Hm & Hq & Hid').
  rewrite forallb_forall in Hr. specialize (Hr l Hl).
  rewrite forallb_forall in Hr.
  specialize (Hr a (owners_complete out_pins _ _ 0%nat a n p Hn Hp Hid)).
  rewrite forallb_forall in Hr.
  specialize (Hr b (owners_complete in_pins _ _ 0%nat b m q Hm Hq Hid')).
  now apply Nat.ltb_lt.
Qed.

Lemma ranked_reaches (rank : nat -> nat) (g : StateGenerator) :
  ranked rank g = true ->
  forall a b, reaches g a b -> (rank a <= rank b)%nat.
Proof.
  intros Hr a b H. induction H as [a b (l & Hl & Ho & Hi) | a | a b c _ IH1 _ IH2].
  - apply Nat.lt_le_incl. eapply ranked_edge; eauto.
  - apply Nat.le_refl.
  - lia.
Qed.

(** A graph whose links all go up in some numbering of its nodes has no
    cycle. *)
Lemma ranked_no_cycles (rank : nat -> nat) (g : StateGenerator) :
  ranked rank g = true -> no_cycles g.
Proof.
  intros Hr l a b Hl Ho Hi Hreach.
  pose proof (ranked_edge rank g Hr l a b Hl Ho Hi).
  pose proof (ranked_reaches rank g Hr b a Hreach).
  lia.
Qed.

(** C3. For all its arguments, [create_beacon_search] on a fresh generator
    returns its thirteen nodes, having made fourteen links, and in the
    resulting graph no link's right-pin node reaches that link's left-pin
    node along links. *)
Theorem beacon_search_no_cycles
    (beacon_enemy_id : Z) (beacon_position : float * float)
    (next_state : string) (position : Position)
    (distance_threshold : float) :
  exists result g,
    create_beacon_search beacon_enemy_id beacon_position next_state position
                         distance_threshold init = (inr result, g) /\
    dict_keys result =
      ["start"; "sequence"; "distance_check"; "teleport_move"; "player_pos";
       "beacon_point"; "operator"; "comparison"; "enemy_check"; "enemy_move";
       "push_next"; "enemy_finder"; "enemy_offset"] /\
    map snd result = nodes g /\
    List.length (links g) = 14%nat /\
    no_cycles g.
Proof.
  destruct position as [x y].
  eexists. eexists. split; [vm_compute; reflexivity|].
  split; [reflexivity|]. split; [reflexivity|]. split; [reflexivity|].
  apply (ranked_no_cycles beacon_rank). vm_compute. reflexivity.
Qed.

(** C4, with the count the code produces.  For every anchor,
    [create_move_to_target] with an offset distance (2.5 or any other) on a
    fresh generator creates exactly two nodes, the offset node and the move
    node, and exactly one link, from the offset node's output "Result" to
    the move node's input "Position". *)
Theorem move_to_target_offset_shape
    (position : Position) (teleport : bool) (offset_dist : float) :
  exists offset move g pr pp,
    create_move_to_target position teleport (Some offset_dist) init
      = (inr [("offset", offset); ("move", move)], g) /\
    nodes g = [offset; move] /\
    node_type offset = "OffsetPos" /\ node_type move = "MoveTo" /\
    dict_get "offsetDist" (config offset) = Some (JFloat offset_dist) /\
    find_pin "Result" (out_pins offset) = Some pr /\
    find_pin "Position" (in_pins move) = Some pp /\
    links g = [mkLink (pin_id pr) (pin_id pp)].
Proof.
  destruct position as [x y].
  do 5 eexists. split; [vm_compute; reflexivity|].
  repeat split; reflexivity.
Qed.

(** C4 as stated fails on the node count: with offset distance 2.5 the
    pattern has created two nodes, not three. *)
Lemma move_to_target_node_count_counterexample :
  List.length (nodes (snd (create_move_to_target origin false (Some 2.5%float)
                                            init))) = 2%nat /\
  List.length (nodes (snd (create_move_to_target origin false (Some 2.5%float)
                                            init))) <> 3%nat.
Proof. split; [reflexivity | discriminate]. Qed.

(* ================================================================== *)
(** * Properties of the id counter *)

Lemma get_next_id_spec (g : StateGenerator) :
  get_next_id g =
    (inr (current_id g + 1),
     {| nodes := nodes g; links := links g;
        current_id := current_id g + 1 |}).
Proof. reflexivity. Qed.

Lemma ids_from_app (c : Z) (k1 k2 : nat) :
  ids_from c (k1 + k2) = ids_from c k1 ++ ids_from (c + Z.of_nat k1) k2.
Proof.
  revert c. induction k1 as [|k1 IH]; intros c.
  - simpl. now rewrite Z.add_0_r.
  - cbn [ids_from Nat.add app]. rewrite IH. do 3 f_equal. lia.
Qed.

Lemma ids_from_bounds (c : Z) (k : nat) :
  Forall (fun i => c < i <= c + Z.of_nat k) (ids_from c k).
Proof.
  revert c. induction k as [|k IH]; intros c; [constructor|].
  cbn [ids_from]. constructor; [lia|].
  eapply Forall_impl; [|apply IH]. simpl. intros i Hi. lia.
Qed.

Lemma ids_from_sorted (c : Z) (k : nat) :
  StronglySorted Z.lt (ids_from c k).
Proof.
  revert c. induction k as [|k IH]; intros c; [constructor|].
  cbn [ids_from]. constructor; [apply IH|].
  eapply Forall_impl; [|apply ids_from_bounds]. simpl. intros i Hi. lia.
Qed.

Lemma strongly_sorted_lt_nodup (l : list Z) :
  StronglySorted Z.lt l -> NoDup l.
Proof.
  induction 1 as [|a l _ IH Hall]; constructor; [|exact IH].
  intros Hin. rewrite Forall_forall in Hall. specialize (Hall a Hin). lia.
Qed.

Ltac run_factory :=
  cbv beta iota zeta delta
    [call_factory create_start_node create_sequence create_if_node
     create_push_node create_wait create_enemy_list create_player_pos
     create_point create_point_list create_move_to create_enter_portal
     create_map_change create_operator create_comparison create_save_pos
     create_use_item create_send_message create_received_message
     create_group create_hotkey create_player_count create_status_level
     create_switch_server create_connect_to_quest create_nexus
     create_reset_tile_cache create_offset_pos
     _create_pin get_next_id nodes_append mapM bind ret get_gen put_gen
     nodes links current_id app].

Lemma call_factory_step (c : FactoryCall) (g : StateGenerator) :
  exists n g', call_factory c g = (inr n, g') /\ factory_step g n g'.
Proof.
  destruct g as [ns ls cur].
  destruct c; run_factory; eexists; eexists; (split; [reflexivity|]);
    unfold factory_step, node_pin_ids; cbn [nodes links current_id in_pins
      out_pins app map pin_id];
    (split; [reflexivity|]); (split; [reflexivity|]).
  all: match goal with
       | |- exists k, ?ids = _ /\ _ =>
           exists (List.length ids); split; [reflexivity | cbn; lia]
       end.
Qed.

(** The calls of a list all return, and together they extend the issued
    ids by the ids that follow the counter. *)
Lemma call_factories_steps (calls : list FactoryCall) :
  forall g, exists created g' k,
    call_factories calls g = (inr created, g') /\
    nodes g' = nodes g ++ created /\ links g' = links g /\
    issued_ids g' = issued_ids g ++ ids_from (current_id g) k /\
    current_id g' = current_id g + Z.of_nat k.
Proof.
  unfold call_factories. induction calls as [|c calls IH]; intros g.
  - exists [], g, 0%nat. simpl. rewrite !app_nil_r, Z.add_0_r. auto.
  - destruct (call_factory_step c g)
      as (n & g1 & Hrun & Hn & Hl & k1 & Hids & Hcur).
    destruct (IH g1) as (created & g' & k2 & Hrun' & Hn' & Hl' & Hi' & Hc').
    exists (n :: created), g', (k1 + k2)%nat.
    cbn [mapM]. unfold bind at 1. rewrite Hrun.
    unfold bind at 1. rewrite Hrun'. unfold ret.
    split; [reflexivity|].
    split; [rewrite Hn', Hn, <- app_assoc; reflexivity|].
    split; [congruence|].
    split.
    + rewrite Hi', ids_from_app, Hcur. unfold issued_ids. rewrite Hn.
      rewrite flat_map_app. simpl. rewrite app_nil_r, Hids.
      now rewrite <- app_assoc.
    + rewrite Hc', Hcur. lia.
Qed.

(** C7. After any sequence of factory calls on a fresh generator, which all
    return, the pin ids of the graph taken in creation order are strictly
    increasing, hence pairwise distinct, each is above [BASE_ID] and at most
    the counter, and the id the next call to [get_next_id] returns is above
    all of them. *)
Theorem issued_ids_strictly_increasing (calls : list FactoryCall) :
  exists created g,
    call_factories calls init = (inr created, g) /\
    nodes g = created /\
    StronglySorted Z.lt (issued_ids g) /\
    NoDup (issued_ids g) /\
    Forall (fun i => BASE_ID < i <= current_id g) (issued_ids g) /\
    exists next g',
      get_next_id g = (inr next, g') /\
      Forall (fun i => i < next) (issued_ids g).
Proof.
  destruct (call_factories_steps calls init)
    as (created & g & k & Hrun & Hn & _ & Hids & Hcur).
  exists created, g.
  change (nodes init) with (@nil Node) in Hn.
  change (issued_ids init) with (@nil Z) in Hids.
  change (current_id init) with BASE_ID in Hids, Hcur.
  rewrite app_nil_l in Hn, Hids.
  rewrite Hids.
  split; [exact Hrun|]. split; [exact Hn|].
  split; [apply ids_from_sorted|].
  split; [apply strongly_sorted_lt_nodup, ids_from_sorted|].
  split; [rewrite Hcur; apply ids_from_bounds|].
  rewrite get_next_id_spec. do 2 eexists. split; [reflexivity|].
  rewrite Hcur.
  eapply Forall_impl; [|apply (ids_from_bounds BASE_ID k)].
  cbv beta. intros i Hi. lia.
Qed.

Lemma generate_twice_identical_witness :
  exists doc,
    generate ex_dumps ex_gen3 = (inr doc, ex_gen3) /\
    generate ex_dumps (snd (generate ex_dumps ex_gen3)) = (inr doc, ex_gen3) /\
    (forall g', nodes g' = nodes ex_gen3 -> links g' = links ex_gen3 ->
                fst (generate ex_dumps g') = inr doc).
Proof. exact (generate_twice_identical ex_dumps ex_gen3). Defined.

(* ================================================================== *)
(** * Invariants of graphs built through the interface *)

Lemma in_some_array_mono (g g' : StateGenerator) (extra : list Node) :
  nodes g' = nodes g ++ extra ->
  forall i, (in_some_out_array g i -> in_some_out_array g' i) /\
            (in_some_in_array g i -> in_some_in_array g' i).
Proof.
  intros Hn i.
  split; intros (n & p & Hin & Hp & Hid); exists n, p;
    rewrite Hn; auto using in_or_app.
Qed.

(** Linking two registered nodes keeps every link oriented. *)
Lemma link_pins_keeps_oriented (g g' : StateGenerator) (s t : Node)
    (sn tn : string) (r : LinkError + unit) :
  In s (nodes g) -> In t (nodes g) ->
  links_oriented g ->
  link_pins s sn t tn g = (r, g') ->
  links_oriented g'.
Proof.
  intros Hs Ht Hor Hrun. destruct r as [e|[]].
  - destruct (link_pins_cases s t sn tn g) as [[e' He] | H].
    + rewrite He in Hrun. inversion Hrun; subst. exact Hor.
    + destruct H as (sp & tp & so & _ & _ & _ & _ & Hlink).
      rewrite Hlink in Hrun. discriminate.
  - destruct (link_pins_cases s t sn tn g) as [[e He] | H];
      [rewrite He in Hrun; discriminate|].
    destruct H as (sp & tp & so & Hsp & Htp & _ & _ & Hlink).
    rewrite Hlink in Hrun. inversion Hrun; subst g'; clear Hrun.
    apply find_source_pin_located in Hsp. destruct Hsp as [Hsp _].
    apply find_target_pin_located in Htp. destruct Htp as [Htp _].
    unfold links_oriented, in_some_out_array, in_some_in_array.
    cbn [links nodes]. apply Forall_app. split; [exact Hor|].
    constructor; [|constructor]. cbn [left_pin_id right_pin_id].
    destruct so; simpl in Hsp, Htp; split; eexists _, _; eauto.
Qed.

(** A factory call keeps every link oriented. *)
Lemma call_factory_keeps_oriented (c : FactoryCall) (g g' : StateGenerator)
    (n : Node) :
  links_oriented g -> call_factory c g = (inr n, g') -> links_oriented g'.
Proof.
  intros Hor Hrun.
  destruct (call_factory_step c g) as (n' & g1 & Hrun' & Hn & Hl & _).
  rewrite Hrun' in Hrun. inversion Hrun; subst n' g1; clear Hrun.
  unfold links_oriented. rewrite Hl.
  eapply Forall_impl; [|exact Hor]. cbv beta. intros l [Ho Hi].
  split; now apply (in_some_array_mono g g' [n] Hn).
Qed.

(** The config a factory builds has each key once and none of the keys
    that [Node.to_dict] writes itself. *)
Lemma call_factory_config_clean (c : FactoryCall) (g g' : StateGenerator)
    (n : Node) :
  call_factory c g = (inr n, g') ->
  dict_wf (config n) /\
  forall k, In k ["nodeType"; "position"; "inPins"; "outPins"] ->
            dict_get k (config n) = None.
Proof.
  destruct g as [ns ls cur].
  destruct c; run_factory; intros H; inversion H; subst; clear H;
    (split;
     [ unfold dict_wf; simpl; repeat constructor; simpl; intuition discriminate
     | intros k Hk; simpl in Hk;
       repeat (destruct Hk as [<-|Hk]; [reflexivity|]); destruct Hk ]).
Qed.

(* ================================================================== *)
(** * Further properties of link_pins *)

Lemma link_present_false (l r : Z) (ls : list Link) :
  link_present l r ls = false <-> ~ In (mkLink l r) ls.
Proof.
  rewrite <- link_present_true. destruct (link_present l r ls); split;
    intros H; try reflexivity; try discriminate; try (intros H'; discriminate).
  exfalso. now apply H.
Qed.

(** X1. [link_pins] succeeds exactly when both names resolve, the first in
    one array class and the second in the other, the two pins have the same
    type, and the oriented id pair is not yet a link; the generator then
    differs from the old one by that one link at the end of [links]. *)
Theorem link_pins_success_iff
    (g g' : StateGenerator) (s t : Node) (sn tn : string) :
  link_pins s sn t tn g = (inr tt, g') <->
  exists sp tp so,
    find_source_pin s sn = (Some sp, so) /\
    find_target_pin t tn = (Some tp, negb so) /\
    pin_type sp = pin_type tp /\
    let l := if so then mkLink (pin_id sp) (pin_id tp)
             else mkLink (pin_id tp) (pin_id sp) in
    ~ In l (links g) /\
    g' = {| nodes := nodes g; links := links g ++ [l];
            current_id := current_id g |}.
Proof.
  split.
  - intros Hrun.
    destruct (link_pins_cases s t sn tn g) as [[e He] | H];
      [rewrite He in Hrun; discriminate|].
    destruct H as (sp & tp & so & Hs & Ht & Hty & Hfresh & Hlink).
    rewrite Hlink in Hrun. inversion Hrun; subst g'; clear Hrun.
    exists sp, tp, so. cbv zeta in *.
    apply link_present_false in Hfresh.
    destruct so; auto 6.
  - intros (sp & tp & so & Hs & Ht & Hty & Hfresh & ->). cbv zeta in *.
    rewrite (link_pins_resolved _ _ _ _ _ _ _ _ g Hs Ht).
    destruct (PinType_eqb_spec (pin_type sp) (pin_type tp)); [|contradiction].
    destruct so; apply link_present_false in Hfresh; simpl;
      now rewrite Hfresh.
Qed.

Lemma link_pins_success_iff_witness :
  exists sp tp so,
    find_source_pin ex_offset "Result" = (Some sp, so) /\
    find_target_pin ex_move "Position" = (Some tp, negb so) /\
    pin_type sp = pin_type tp /\
    let l := if so then mkLink (pin_id sp) (pin_id tp)
             else mkLink (pin_id tp) (pin_id sp) in
    ~ In l (links ex_gen2) /\
    ex_gen3 = {| nodes := nodes ex_gen2; links := links ex_gen2 ++ [l];
                 current_id := current_id ex_gen2 |}.
Proof.
  apply (proj1 (link_pins_success_iff ex_gen2 ex_gen3 ex_offset ex_move
                  "Result" "Position")).
  reflexivity.
Defined.

(** X2. [link_pins] raises the same-array error exactly when both names
    resolve to pins of one type that come from the same array class, two
    outputs or two inputs; the generator is then unchanged. *)
Theorem link_pins_invalid_shape_iff
    (g : StateGenerator) (s t : Node) (sn tn : string) (so to : bool) :
  link_pins s sn t tn g = (inl (InvalidLinkShape sn tn so to), g) <->
  exists sp tp,
    find_source_pin s sn = (Some sp, so) /\
    find_target_pin t tn = (Some tp, to) /\
    pin_type sp = pin_type tp /\ so = to.
Proof.
  split.
  - intros Hrun.
    destruct (find_source_pin s sn) as [[sp|] so'] eqn:Hs;
      [| rewrite link_pins_unresolved in Hrun;
         [discriminate | rewrite Hs; now left]].
    destruct (find_target_pin t tn) as [[tp|] to'] eqn:Ht;
      [| rewrite link_pins_unresolved in Hrun;
         [discriminate | rewrite Ht; now right]].
    rewrite (link_pins_resolved _ _ _ _ _ _ _ _ g Hs Ht) in Hrun.
    destruct (PinType_eqb_spec (pin_type sp) (pin_type tp)) as [Hty|Hty];
      simpl in Hrun; [|discriminate].
    exists sp, tp.
    destruct so', to'; simpl in Hrun;
      repeat match type of Hrun with
             | (if ?c then _ else _) = _ => destruct c
             end;
      try discriminate; inversion Hrun; subst; auto.
  - intros (sp & tp & Hs & Ht & Hty & <-).
    rewrite (link_pins_resolved _ _ _ _ _ _ _ _ g Hs Ht).
    destruct (PinType_eqb_spec (pin_type sp) (pin_type tp)); [|contradiction].
    destruct so; reflexivity.
Qed.

Lemma link_pins_invalid_shape_iff_witness :
  link_pins ex_offset "Pos" ex_move "Position" ex_gen2 =
    (inl (InvalidLinkShape "Pos" "Position" false false), ex_gen2).
Proof.
  apply (proj2 (link_pins_invalid_shape_iff ex_gen2 ex_offset ex_move
                  "Pos" "Position" false false)).
  exists (mkPin 50001 "Pos" VECTOR2), (mkPin 50004 "Position" VECTOR2).
  repeat split.
Defined.



(** X4. Both operations that change a graph keep every link oriented,
    its left id in an output array and its right id in an input array of a
    registered node: [link_pins] on two registered nodes, whether it
    succeeds or raises, and every node factory. *)
Theorem operations_keep_links_oriented (g g' : StateGenerator) :
  links_oriented g ->
  (forall s t sn tn r,
      In s (nodes g) -> In t (nodes g) ->
      link_pins s sn t tn g = (r, g') -> links_oriented g') /\
  (forall c n, call_factory c g = (inr n, g') -> links_oriented g').
Proof.
  intros Hor. split.
  - intros s t sn tn r Hs Ht Hrun.
    exact (link_pins_keeps_oriented g g' s t sn tn r Hs Ht Hor Hrun).
  - intros c n Hrun.
    exact (call_factory_keeps_oriented c g g' n Hor Hrun).
Qed.

Lemma operations_keep_links_oriented_witness :
  links_oriented ex_gen3 /\ links_oriented ex_gen2.
Proof.
  split.
  - apply (proj1 (operations_keep_links_oriented ex_gen2 ex_gen3
                    (Forall_nil _))
             ex_offset ex_move "Result" "Position" (inr tt)).
    + simpl. now left.
    + simpl. right. now left.
    + reflexivity.
  - apply (proj2 (operations_keep_links_oriented ex_gen1 ex_gen2
                    (Forall_nil _))
             (CallMoveTo origin false false) ex_move).
    reflexivity.
Defined.

(* ================================================================== *)
(** * Further properties of the node factories *)

Lemma ids_from_length (c : Z) (k : nat) : List.length (ids_from c k) = k.
Proof. revert c. induction k; intros c; simpl; auto. Qed.

(** X5. Every node factory returns, on every generator and whatever its
    arguments: it never raises.  The node it returns is appended to
    [nodes] after the nodes that were there, [links] is untouched, the node
    has at least one pin, its pin ids are the ids that follow the counter,
    inputs first, and the counter has advanced by the number of its pins. *)
Theorem call_factory_appends_one_node (c : FactoryCall) (g : StateGenerator) :
  exists n g',
    call_factory c g = (inr n, g') /\
    nodes g' = nodes g ++ [n] /\
    links g' = links g /\
    node_pin_ids n <> [] /\
    node_pin_ids n = ids_from (current_id g) (List.length (node_pin_ids n)) /\
    current_id g' = current_id g + Z.of_nat (List.length (node_pin_ids n)).
Proof.
  destruct (call_factory_step c g)
    as (n & g' & Hrun & Hn & Hl & k & Hids & Hcur).
  exists n, g'.
  assert (Hk : List.length (node_pin_ids n) = k)
    by (rewrite Hids; apply ids_from_length).
  rewrite Hk. repeat split; auto.
  clear - Hrun. destruct g as [ns ls cur]. revert Hrun.
  destruct c; run_factory; intros H; inversion H; subst; discriminate.
Qed.

(** X6. On a generator whose pin ids are all at most the counter, a factory
    call gives the new node ids that are above every id already in the
    graph, and the ids of the graph stay at most the counter and, if they
    were pairwise distinct, pairwise distinct. *)
Theorem call_factory_fresh_ids
    (c : FactoryCall) (g g' : StateGenerator) (n : Node) :
  Forall (fun i => i <= current_id g) (issued_ids g) ->
  call_factory c g = (inr n, g') ->
  (forall i j, In i (issued_ids g) -> In j (node_pin_ids n) -> i < j) /\
  Forall (fun i => i <= current_id g') (issued_ids g') /\
  (NoDup (issued_ids g) -> NoDup (issued_ids g')).
Proof.
  intros Hle Hrun.
  destruct (call_factory_step c g)
    as (n' & g1 & Hrun' & Hn & Hl & k & Hids & Hcur).
  rewrite Hrun' in Hrun. inversion Hrun; subst n' g1; clear Hrun.
  pose proof (ids_from_bounds (current_id g) k) as Hb.
  rewrite <- Hids in Hb. rewrite Forall_forall in Hle, Hb.
  assert (Hiss : issued_ids g' = issued_ids g ++ node_pin_ids n).
  { unfold issued_ids. rewrite Hn, flat_map_app. simpl.
    now rewrite app_nil_r. }
  assert (Hlt : forall i j, In i (issued_ids g) -> In j (node_pin_ids n) ->
                            i < j).
  { intros i j Hi Hj. specialize (Hle i Hi). specialize (Hb j Hj).
    simpl in Hb. lia. }
  split; [exact Hlt|]. split.
  - rewrite Hiss, Forall_forall. intros i Hi. apply in_app_or in Hi.
    destruct Hi as [Hi|Hi].
    + specialize (Hle i Hi). lia.
    + specialize (Hb i Hi). simpl in Hb. lia.
  - intros Hnd. rewrite Hiss. apply NoDup_app; auto.
    + rewrite Hids. apply strongly_sorted_lt_nodup, ids_from_sorted.
    + intros i Hi Hj. specialize (Hlt i i Hi Hj). lia.
Qed.

Lemma call_factory_fresh_ids_witness :
  (forall i j, In i (issued_ids ex_gen1) -> In j (node_pin_ids ex_move) ->
               i < j) /\
  Forall (fun i => i <= current_id ex_gen2) (issued_ids ex_gen2) /\
  (NoDup (issued_ids ex_gen1) -> NoDup (issued_ids ex_gen2)).
Proof.
  apply (call_factory_fresh_ids (CallMoveTo origin false false)
           ex_gen1 ex_gen2 ex_move).
  - repeat constructor; simpl; lia.
  - reflexivity.
Defined.

Lemma find_pin_app_none (name : string) (a b : list Pin) (p : Pin) :
  NoDup (map pin_name (a ++ b)) ->
  find_pin name a = Some p -> find_pin name b = None.
Proof.
  intros Hnd Ha. apply find_pin_some in Ha. destruct Ha as [Hin Hname].
  apply find_pin_none. intros q Hq Hqn.
  rewrite map_app in Hnd.
  induction a as [|x a IH]; [contradiction|].
  simpl in Hnd. inversion Hnd as [|? ? Hnin Hnd']; subst.
  destruct Hin as [->|Hin].
  - apply Hnin, in_or_app. right. rewrite <- Hqn. now apply in_map.
  - now apply IH.
Qed.

(** When no pin name occurs twice in the two arrays of a node, the two
    scan orders of [link_pins] find the same pin. *)
Lemma unique_names_same_resolution (n : Node) (name : string) :
  NoDup (map pin_name (in_pins n ++ out_pins n)) ->
  find_source_pin n name = find_target_pin n name.
Proof.
  intros Hnd. unfold find_source_pin, find_target_pin.
  destruct (find_pin name (in_pins n)) as [p|] eqn:Ei.
  - now rewrite (find_pin_app_none name _ _ p Hnd Ei).
  - destruct (find_pin name (out_pins n)); reflexivity.
Qed.

(** X7. In a node made by a factory no pin name occurs twice, within an
    array or across the two arrays; so for such a node the output-first scan
    of the first argument of [link_pins] and the input-first scan of its
    second argument find the same pin under every name. *)
Theorem factory_pin_names_unique
    (c : FactoryCall) (g g' : StateGenerator) (n : Node) :
  call_factory c g = (inr n, g') ->
  NoDup (map pin_name (in_pins n ++ out_pins n)) /\
  forall name, find_source_pin n name = find_target_pin n name.
Proof.
  intros Hrun.
  assert (Hnd : NoDup (map pin_name (in_pins n ++ out_pins n))).
  { destruct g as [ns ls cur]. revert Hrun.
    destruct c; run_factory; intros H; inversion H; subst; clear H;
      cbn [in_pins out_pins app map pin_name];
      repeat (constructor; [cbn; intuition discriminate|]); constructor. }
  split; [exact Hnd|].
  intros name. now apply unique_names_same_resolution.
Qed.

Lemma factory_pin_names_unique_witness :
  NoDup (map pin_name (in_pins ex_move ++ out_pins ex_move)) /\
  forall name, find_source_pin ex_move name = find_target_pin ex_move name.
Proof.
  apply (factory_pin_names_unique (CallMoveTo origin false false)
           ex_gen1 ex_gen2 ex_move).
  reflexivity.
Defined.

(* ================================================================== *)
(** * Further properties of Node.to_dict *)

Lemma dict_keys_update_disjoint {V : Type} (d other : pydict V) :
  dict_wf other ->
  (forall k, In k (dict_keys other) -> ~ In k (dict_keys d)) ->
  dict_keys (dict_update d other) = dict_keys d ++ dict_keys other.
Proof.
  unfold dict_update, dict_wf. revert d.
  induction other as [|[k v] o IH]; intros d Hwf Hdis; simpl.
  - now rewrite app_nil_r.
  - inversion Hwf as [|? ? Hnin Hnd]; subst.
    assert (Hk : dict_keys (dict_set d k v) = dict_keys d ++ [k]).
    { rewrite dict_keys_set.
      destruct (in_dec string_dec k (dict_keys d)) as [Hin|_]; [|reflexivity].
      exfalso. apply (Hdis k); [now left | exact Hin]. }
    rewrite IH; [| exact Hnd |].
    + rewrite Hk, <- app_assoc. reflexivity.
    + intros k' Hk' Hin. rewrite Hk in Hin. apply in_app_or in Hin.
      destruct Hin as [Hin | [<- | []]].
      * apply (Hdis k'); [now right | exact Hin].
      * contradiction.
Qed.

Lemma structural_record_keys (n : Node) :
  dict_keys (structural_record n) =
    ["nodeType"; "position"]
      ++ (match in_pins n with [] => [] | _ :: _ => ["inPins"] end)
      ++ (match out_pins n with [] => [] | _ :: _ => ["outPins"] end).
Proof.
  unfold structural_record, Node_to_dict, dict_update. simpl.
  destruct (in_pins n), (out_pins n); reflexivity.
Qed.

Lemma structural_record_pins (n : Node) :
  dict_get "inPins" (structural_record n) =
    match in_pins n with
    | [] => None
    | _ :: _ => Some (JList (map Pin_to_dict (in_pins n)))
    end /\
  dict_get "outPins" (structural_record n) =
    match out_pins n with
    | [] => None
    | _ :: _ => Some (JList (map Pin_to_dict (out_pins n)))
    end.
Proof.
  unfold structural_record, Node_to_dict, dict_update. simpl.
  destruct (in_pins n), (out_pins n); split; reflexivity.
Qed.

Lemma Node_to_dict_keys_clean (n : Node) :
  dict_wf (config n) ->
  (forall k, In k ["nodeType"; "position"; "inPins"; "outPins"] ->
             dict_get k (config n) = None) ->
  dict_keys (Node_to_dict n) =
    ["nodeType"; "position"]
      ++ (match in_pins n with [] => [] | _ :: _ => ["inPins"] end)
      ++ (match out_pins n with [] => [] | _ :: _ => ["outPins"] end)
      ++ dict_keys (config n).
Proof.
  intros Hwf Hclean.
  rewrite Node_to_dict_update, dict_keys_update_disjoint; [| exact Hwf |].
  - rewrite structural_record_keys, <- !app_assoc. reflexivity.
  - intros k Hk Hin. rewrite structural_record_keys in Hin.
    assert (Hres : In k ["nodeType"; "position"; "inPins"; "outPins"]).
    { destruct (in_pins n), (out_pins n); simpl in Hin; simpl; tauto. }
    apply Hclean in Hres. apply dict_get_none_keys in Hres. contradiction.
Qed.

(** X8. For a node whose config has none of the four keys that [to_dict]
    writes itself, the record lists ["nodeType"], ["position"], then
    ["inPins"] only if the node has input pins, then ["outPins"] only if it
    has output pins, then the config keys in their order; an empty pin array
    leaves no key behind, a non-empty one is written as the list of its
    [{id, name}] records, and every config entry is in the record. *)
Theorem Node_to_dict_layout (n : Node) :
  dict_wf (config n) ->
  (forall k, In k ["nodeType"; "position"; "inPins"; "outPins"] ->
             dict_get k (config n) = None) ->
  dict_keys (Node_to_dict n) =
    ["nodeType"; "position"]
      ++ (match in_pins n with [] => [] | _ :: _ => ["inPins"] end)
      ++ (match out_pins n with [] => [] | _ :: _ => ["outPins"] end)
      ++ dict_keys (config n) /\
  dict_get "inPins" (Node_to_dict n) =
    match in_pins n with
    | [] => None
    | _ :: _ => Some (JList (map Pin_to_dict (in_pins n)))
    end /\
  dict_get "outPins" (Node_to_dict n) =
    match out_pins n with
    | [] => None
    | _ :: _ => Some (JList (map Pin_to_dict (out_pins n)))
    end /\
  (forall k v, dict_get k (config n) = Some v ->
               dict_get k (Node_to_dict n) = Some v).
Proof.
  intros Hwf Hclean.
  split; [now apply Node_to_dict_keys_clean|].
  split; [|split].
  - rewrite (Node_to_dict_get n _ Hwf), Hclean by (simpl; tauto).
    apply structural_record_pins.
  - rewrite (Node_to_dict_get n _ Hwf), Hclean by (simpl; tauto).
    apply structural_record_pins.
  - intros k v Hk. now rewrite (Node_to_dict_get n _ Hwf), Hk.
Qed.

Lemma Node_to_dict_layout_witness :
  dict_keys (Node_to_dict ex_feeder) = ["nodeType"; "position"; "outPins"] /\
  dict_get "inPins" (Node_to_dict ex_feeder) = None /\
  dict_get "outPins" (Node_to_dict ex_feeder) =
    Some (JList [JDict [("id", JInt 3); ("name", JStr "Pos")]]) /\
  (forall k v, dict_get k (config ex_feeder) = Some v ->
               dict_get k (Node_to_dict ex_feeder) = Some v).
Proof.
  apply (Node_to_dict_layout ex_feeder).
  - constructor.
  - reflexivity.
Defined.

(** X9. The record of a node made by any factory, with any arguments: its
    kind string under ["nodeType"], its position under ["position"], its
    pin arrays when they are not empty, then the keys of its config; the
    factory never builds a config that collides with the four structural
    keys. *)
Theorem factory_node_record
    (c : FactoryCall) (g g' : StateGenerator) (n : Node) :
  call_factory c g = (inr n, g') ->
  dict_get "nodeType" (Node_to_dict n) = Some (JStr (node_type n)) /\
  dict_get "position" (Node_to_dict n) =
    Some (JDict [("x", JFloat (fst (position n)));
                 ("y", JFloat (snd (position n)))]) /\
  dict_keys (Node_to_dict n) =
    ["nodeType"; "position"]
      ++ (match in_pins n with [] => [] | _ :: _ => ["inPins"] end)
      ++ (match out_pins n with [] => [] | _ :: _ => ["outPins"] end)
      ++ dict_keys (config n) /\
  dict_wf (Node_to_dict n).
Proof.
  intros Hrun.
  destruct (call_factory_config_clean c g g' n Hrun) as [Hwf Hclean].
  split; [|split; [|split]].
  - rewrite (Node_to_dict_get n _ Hwf), Hclean by (simpl; tauto).
    unfold structural_record, Node_to_dict, dict_update. simpl.
    destruct (in_pins n), (out_pins n); reflexivity.
  - rewrite (Node_to_dict_get n _ Hwf), Hclean by (simpl; tauto).
    unfold structural_record, Node_to_dict, dict_update. simpl.
    destruct (in_pins n), (out_pins n); reflexivity.
  - apply (Node_to_dict_keys_clean n Hwf Hclean).
  - rewrite Node_to_dict_update. apply dict_wf_update, structural_record_wf.
Qed.

Lemma factory_node_record_witness :
  dict_get "nodeType" (Node_to_dict ex_move) = Some (JStr "MoveTo") /\
  dict_get "position" (Node_to_dict ex_move) =
    Some (JDict [("x", JFloat 0); ("y", JFloat 0)]) /\
  dict_keys (Node_to_dict ex_move) =
    ["nodeType"; "position"; "inPins"; "outPins"; "teleport";
     "teleportOnce"] /\
  dict_wf (Node_to_dict ex_move).
Proof.
  apply (factory_node_record (CallMoveTo origin false false)
           ex_gen1 ex_gen2 ex_move).
  reflexivity.
Defined.

(* ================================================================== *)
(** * The patterns on a graph that already has nodes and links *)

(** A link between two pins that both resolve, in opposite array classes
    and with one type, and whose pair is new, goes through. *)
Lemma link_pins_new (s t : Node) (sn tn : string) (sp tp : Pin) (so : bool)
    (g : StateGenerator) :
  find_source_pin s sn = (Some sp, so) ->
  find_target_pin t tn = (Some tp, negb so) ->
  PinType_eqb (pin_type sp) (pin_type tp) = true ->
  ~ In (if so then mkLink (pin_id sp) (pin_id tp)
        else mkLink (pin_id tp) (pin_id sp)) (links g) ->
  link_pins s sn t tn g =
    (inr tt,
     {| nodes := nodes g;
        links := links g ++ [if so then mkLink (pin_id sp) (pin_id tp)
                             else mkLink (pin_id tp) (pin_id sp)];
        current_id := current_id g |}).
Proof.
  intros Hs Ht Hty Hfresh.
  rewrite (link_pins_resolved _ _ _ _ _ _ _ _ g Hs Ht), Hty.
  destruct so; apply link_present_false in Hfresh; simpl; now rewrite Hfresh.
Qed.

Lemma bind_link_pins_new {B : Type} (s t : Node) (sn tn : string)
    (sp tp : Pin) (so : bool) (k : unit -> M B) (g : StateGenerator) :
  find_source_pin s sn = (Some sp, so) ->
  find_target_pin t tn = (Some tp, negb so) ->
  PinType_eqb (pin_type sp) (pin_type tp) = true ->
  ~ In (if so then mkLink (pin_id sp) (pin_id tp)
        else mkLink (pin_id tp) (pin_id sp)) (links g) ->
  bind (link_pins s sn t tn) k g =
    k tt {| nodes := nodes g;
            links := links g ++ [if so then mkLink (pin_id sp) (pin_id tp)
                                 else mkLink (pin_id tp) (pin_id sp)];
            current_id := current_id g |}.
Proof.
  intros Hs Ht Hty Hfresh. unfold bind.
  now rewrite (link_pins_new s t sn tn sp tp so g Hs Ht Hty Hfresh).
Qed.

Lemma links_issued_app (ns ns' : list Node) (ls new : list Link) (c c' : Z) :
  links_issued {| nodes := ns; links := ls; current_id := c |} ->
  c <= c' ->
  Forall (fun l => left_pin_id l <= c' /\ right_pin_id l <= c') new ->
  links_issued {| nodes := ns'; links := ls ++ new; current_id := c' |}.
Proof.
  unfold links_issued. cbn [links current_id]. intros H Hle Hnew.
  apply Forall_app. split; [|exact Hnew].
  eapply Forall_impl; [|exact H]. cbv beta. intros l [H1 H2]. lia.
Qed.

(** A link whose ids are above the counter is not among issued links. *)
Ltac new_link Hiss :=
  let Hin := fresh "Hin" in
  cbn [links nodes current_id pin_id]; intros Hin;
  repeat (apply in_app_or in Hin; destruct Hin as [Hin|Hin]);
  [ unfold links_issued in Hiss; rewrite Forall_forall in Hiss;
    apply Hiss in Hin;
    cbn [links current_id left_pin_id right_pin_id pin_id] in Hin;
    lia
  | cbn [In] in Hin;
    repeat (destruct Hin as [Hin|Hin];
            [ pose proof (f_equal left_pin_id Hin);
              pose proof (f_equal right_pin_id Hin);
              cbn [left_pin_id right_pin_id] in *; lia |]);
    exact Hin .. ].

(** Run the pattern up to its next [link_pins] and through it. *)
Ltac step_link Hiss :=
  cbn -[link_pins Z.add];
  erewrite bind_link_pins_new;
  [ | reflexivity | reflexivity | reflexivity | new_link Hiss ].

Local Arguments link_pins : simpl never.

Ltac run_links Hiss := repeat step_link Hiss; cbn -[Z.add].

(** The generator after a run extends the one before it. *)
Ltac extends Hiss :=
  cbn -[Z.add]; rewrite <- ?app_assoc; cbn [app];
  first
    [ reflexivity
    | lia
    | eapply links_issued_app;
      [ exact Hiss | lia | repeat constructor; cbn [left_pin_id right_pin_id]; lia ] ].

(** X10. On every generator whose links only join issued ids,
    [create_find_target] returns its two nodes under the roles "finder" and
    "check": it appends the scan node and the branch node, in this order,
    takes seven ids, and adds exactly one link, from the scan node's output
    "Exists" to the branch node's input "Condition". *)
Theorem create_find_target_effect
    (enemy_ids : list Z) (position : Position) (object_type : Z)
    (g : StateGenerator) :
  links_issued g ->
  exists finder check g' pe pc,
    create_find_target enemy_ids position object_type g
      = (inr [("finder", finder); ("check", check)], g') /\
    nodes g' = nodes g ++ [finder; check] /\
    node_type finder = "EnemyList" /\ node_type check = "If" /\
    dict_get "enemyList" (config finder) = Some (JList (map JInt enemy_ids)) /\
    dict_get "objectType" (config finder) = Some (JInt object_type) /\
    find_pin "Exists" (out_pins finder) = Some pe /\
    find_pin "Condition" (in_pins check) = Some pc /\
    links g' = links g ++ [mkLink (pin_id pe) (pin_id pc)] /\
    current_id g' = current_id g + 7 /\
    links_issued g'.
Proof.
  intros Hiss. destruct position as [x y]. destruct g as [ns ls cur].
  unfold create_find_target, link_data, link_exec.
  do 5 eexists. split; [run_links Hiss; reflexivity|].
  repeat split; try reflexivity; extends Hiss.
Qed.

Lemma create_find_target_effect_witness :
  exists finder check g' pe pc,
    create_find_target [100] origin 0 ex_gen3
      = (inr [("finder", finder); ("check", check)], g') /\
    nodes g' = nodes ex_gen3 ++ [finder; check] /\
    node_type finder = "EnemyList" /\ node_type check = "If" /\
    dict_get "enemyList" (config finder) = Some (JList (map JInt [100])) /\
    dict_get "objectType" (config finder) = Some (JInt 0) /\
    find_pin "Exists" (out_pins finder) = Some pe /\
    find_pin "Condition" (in_pins check) = Some pc /\
    links g' = links ex_gen3 ++ [mkLink (pin_id pe) (pin_id pc)] /\
    current_id g' = current_id ex_gen3 + 7 /\
    links_issued g'.
Proof.
  apply (create_find_target_effect [100] origin 0 ex_gen3).
  repeat constructor; simpl; lia.
Defined.

(** X11. [create_move_to_target] on every generator whose links only join
    issued ids.  Without an offset distance it appends one move node and no
    link; with one it appends the offset node and the move node and links
    the offset's output "Result" to the move's input "Position".  The
    teleport flag and the distance are stored in the configs. *)
Theorem create_move_to_target_effect
    (position : Position) (teleport : bool) (g : StateGenerator) :
  links_issued g ->
  (exists move g',
      create_move_to_target position teleport None g
        = (inr [("move", move)], g') /\
      nodes g' = nodes g ++ [move] /\ links g' = links g /\
      dict_get "teleport" (config move) = Some (JBool teleport) /\
      current_id g' = current_id g + 3 /\ links_issued g') /\
  (forall dist, exists offset move g' pr pp,
      create_move_to_target position teleport (Some dist) g
        = (inr [("offset", offset); ("move", move)], g') /\
      nodes g' = nodes g ++ [offset; move] /\
      dict_get "offsetDist" (config offset) = Some (JFloat dist) /\
      dict_get "teleport" (config move) = Some (JBool teleport) /\
      find_pin "Result" (out_pins offset) = Some pr /\
      find_pin "Position" (in_pins move) = Some pp /\
      links g' = links g ++ [mkLink (pin_id pr) (pin_id pp)] /\
      current_id g' = current_id g + 5 /\ links_issued g').
Proof.
  intros Hiss. destruct position as [x y]. destruct g as [ns ls cur].
  unfold create_move_to_target, link_data, link_exec. split.
  - do 2 eexists. split; [cbn -[Z.add]; reflexivity|].
    repeat split; try reflexivity; try (cbn; lia).
    rewrite <- (app_nil_r ls).
    eapply links_issued_app; [exact Hiss | cbn; lia | constructor].
  - intros dist. do 5 eexists. split; [run_links Hiss; reflexivity|].
    repeat split; try reflexivity; extends Hiss.
Qed.

Lemma create_move_to_target_effect_witness :
  (exists move g',
      create_move_to_target origin true None ex_gen3
        = (inr [("move", move)], g') /\
      nodes g' = nodes ex_gen3 ++ [move] /\ links g' = links ex_gen3 /\
      dict_get "teleport" (config move) = Some (JBool true) /\
      current_id g' = current_id ex_gen3 + 3 /\ links_issued g') /\
  (forall dist, exists offset move g' pr pp,
      create_move_to_target origin true (Some dist) ex_gen3
        = (inr [("offset", offset); ("move", move)], g') /\
      nodes g' = nodes ex_gen3 ++ [offset; move] /\
      dict_get "offsetDist" (config offset) = Some (JFloat dist) /\
      dict_get "teleport" (config move) = Some (JBool true) /\
      find_pin "Result" (out_pins offset) = Some pr /\
      find_pin "Position" (in_pins move) = Some pp /\
      links g' = links ex_gen3 ++ [mkLink (pin_id pr) (pin_id pp)] /\
      current_id g' = current_id ex_gen3 + 5 /\ links_issued g').
Proof.
  apply (create_move_to_target_effect origin true ex_gen3).
  repeat constructor; simpl; lia.
Defined.

(** X12. [create_distance_check] on every generator whose links only join
    issued ids returns five nodes under the roles "player", "target",
    "operator", "comparison", "check", appended in this order, and adds four
    links: the two positions into the operator's inputs "A" and "B", the
    operator's "Distance" into the comparison, and the comparison's
    "Result" into the branch's "Condition".  The comparison is of type 2
    against the threshold. *)
Theorem create_distance_check_effect
    (target_point : float * float) (position : Position) (threshold : float)
    (g : StateGenerator) :
  links_issued g ->
  exists player target operator comparison check g',
    create_distance_check target_point position threshold g
      = (inr [("player", player); ("target", target);
              ("operator", operator); ("comparison", comparison);
              ("check", check)], g') /\
    nodes g' = nodes g ++ [player; target; operator; comparison; check] /\
    map node_type [player; target; operator; comparison; check]
      = ["PlayerPos"; "PointList"; "Operator"; "Comparison"; "If"] /\
    dict_get "comparisonType" (config comparison) = Some (JInt 2) /\
    dict_get "valToCompare" (config comparison) = Some (JFloat threshold) /\
    (exists p_player p_target p_a p_b p_dist p_cmp p_res p_cond,
        find_pin "Pos" (out_pins player) = Some p_player /\
        find_pin "Pos" (out_pins target) = Some p_target /\
        find_pin "A" (in_pins operator) = Some p_a /\
        find_pin "B" (in_pins operator) = Some p_b /\
        find_pin "Distance" (out_pins operator) = Some p_dist /\
        find_pin "A" (in_pins comparison) = Some p_cmp /\
        find_pin "Result" (out_pins comparison) = Some p_res /\
        find_pin "Condition" (in_pins check) = Some p_cond /\
        links g' = links g ++
          [mkLink (pin_id p_player) (pin_id p_a);
           mkLink (pin_id p_target) (pin_id p_b);
           mkLink (pin_id p_dist) (pin_id p_cmp);
           mkLink (pin_id p_res) (pin_id p_cond)]) /\
    current_id g' = current_id g + 13 /\
    links_issued g'.
Proof.
  intros Hiss. destruct position as [x y]. destruct g as [ns ls cur].
  unfold create_distance_check, link_data, link_exec.
  do 6 eexists. split; [run_links Hiss; reflexivity|].
  split; [extends Hiss|]. split; [reflexivity|].
  split; [reflexivity|]. split; [reflexivity|].
  split; [do 8 eexists; repeat split; try reflexivity; extends Hiss|].
  split; extends Hiss.
Qed.

Lemma create_distance_check_effect_witness :
  exists player target operator comparison check g',
    create_distance_check origin origin 10%float ex_gen3
      = (inr [("player", player); ("target", target);
              ("operator", operator); ("comparison", comparison);
              ("check", check)], g') /\
    nodes g' = nodes ex_gen3 ++ [player; target; operator; comparison; check]
    /\
    map node_type [player; target; operator; comparison; check]
      = ["PlayerPos"; "PointList"; "Operator"; "Comparison"; "If"] /\
    dict_get "comparisonType" (config comparison) = Some (JInt 2) /\
    dict_get "valToCompare" (config comparison) = Some (JFloat 10) /\
    (exists p_player p_target p_a p_b p_dist p_cmp p_res p_cond,
        find_pin "Pos" (out_pins player) = Some p_player /\
        find_pin "Pos" (out_pins target) = Some p_target /\
        find_pin "A" (in_pins operator) = Some p_a /\
        find_pin "B" (in_pins operator) = Some p_b /\
        find_pin "Distance" (out_pins operator) = Some p_dist /\
        find_pin "A" (in_pins comparison) = Some p_cmp /\
        find_pin "Result" (out_pins comparison) = Some p_res /\
        find_pin "Condition" (in_pins check) = Some p_cond /\
        links g' = links ex_gen3 ++
          [mkLink (pin_id p_player) (pin_id p_a);
           mkLink (pin_id p_target) (pin_id p_b);
           mkLink (pin_id p_dist) (pin_id p_cmp);
           mkLink (pin_id p_res) (pin_id p_cond)]) /\
    current_id g' = current_id ex_gen3 + 13 /\
    links_issued g'.
Proof.
  apply (create_distance_check_effect origin origin 10%float ex_gen3).
  repeat constructor; simpl; lia.
Defined.

(** X13. [create_patrol] on every generator whose links only join issued
    ids returns the waypoint list node and the move node under the roles
    "pointlist" and "move", appended in this order, with one link from the
    list's output "Pos" to the move's input "Position"; the waypoints are
    stored in order as {x, y} objects, and an empty waypoint list is
    accepted. *)
Theorem create_patrol_effect
    (waypoints : list (float * float)) (position : Position)
    (switch_distance : float) (g : StateGenerator) :
  links_issued g ->
  exists pointlist move g' pp pm,
    create_patrol waypoints position switch_distance g
      = (inr [("pointlist", pointlist); ("move", move)], g') /\
    nodes g' = nodes g ++ [pointlist; move] /\
    dict_get "pointList" (config pointlist) =
      Some (JList (map (fun xy => JDict [("x", JFloat (fst xy));
                                          ("y", JFloat (snd xy))])
                       waypoints)) /\
    dict_get "switchDistance" (config pointlist)
      = Some (JFloat switch_distance) /\
    find_pin "Pos" (out_pins pointlist) = Some pp /\
    find_pin "Position" (in_pins move) = Some pm /\
    links g' = links g ++ [mkLink (pin_id pp) (pin_id pm)] /\
    current_id g' = current_id g + 4 /\
    links_issued g'.
Proof.
  intros Hiss. destruct position as [x y]. destruct g as [ns ls cur].
  unfold create_patrol, link_data, link_exec.
  do 5 eexists. split; [run_links Hiss; reflexivity|].
  repeat split; try reflexivity; extends Hiss.
Qed.

Lemma create_patrol_effect_witness :
  exists pointlist move g' pp pm,
    create_patrol [] origin 2%float ex_gen3
      = (inr [("pointlist", pointlist); ("move", move)], g') /\
    nodes g' = nodes ex_gen3 ++ [pointlist; move] /\
    dict_get "pointList" (config pointlist) = Some (JList []) /\
    dict_get "switchDistance" (config pointlist) = Some (JFloat 2) /\
    find_pin "Pos" (out_pins pointlist) = Some pp /\
    find_pin "Position" (in_pins move) = Some pm /\
    links g' = links ex_gen3 ++ [mkLink (pin_id pp) (pin_id pm)] /\
    current_id g' = current_id ex_gen3 + 4 /\
    links_issued g'.
Proof.
  apply (create_patrol_effect [] origin 2%float ex_gen3).
  repeat constructor; simpl; lia.
Defined.

(** Evaluation of the factories and of the monad, leaving [link_pins],
    the dictionaries and the arithmetic as they are. *)
Ltac run_monad :=
  cbv beta iota zeta delta
    [create_start_node create_sequence create_if_node
     create_push_node create_wait create_enemy_list create_player_pos
     create_point create_point_list create_move_to create_enter_portal
     create_map_change create_operator create_comparison create_save_pos
     create_use_item create_send_message create_received_message
     create_group create_hotkey create_player_count create_status_level
     create_switch_server create_connect_to_quest create_nexus
     create_reset_tile_cache create_offset_pos
     _create_pin get_next_id nodes_append mapM bind ret get_gen put_gen
     nodes links current_id fst snd].

Ltac run_link Hiss :=
  run_monad;
  erewrite link_pins_new;
  [ | reflexivity | reflexivity | reflexivity | new_link Hiss ].

Ltac run_pattern Hiss := repeat run_link Hiss; run_monad; reflexivity.

Ltac effect Hiss :=
  unfold pattern_effect;
  cbn [dict_set String.eqb Ascii.eqb Bool.eqb map snd nodes links current_id];
  split; [rewrite <- ?app_assoc; reflexivity|];
  split; [reflexivity|];
  split; [cbn [Z.of_nat Pos.of_succ_nat Pos.succ]; lia|];
  eexists; split; [rewrite <- ?app_assoc; cbn [app]; reflexivity|];
  split; [reflexivity|];
  repeat constructor; cbn [left_pin_id right_pin_id pin_id]; lia.

(** X14. [create_beacon_search] goes through on every generator whose links
    only join issued ids, not only on a fresh one: it returns its thirteen
    nodes under their roles, appends them in role order with the 36 ids
    that follow the counter, and adds fourteen links, every one between two
    pins of these new nodes. *)
Theorem create_beacon_search_effect
    (beacon_enemy_id : Z) (beacon_position : float * float)
    (next_state : string) (position : Position)
    (distance_threshold : float) (g : StateGenerator) :
  links_issued g ->
  exists result g',
    create_beacon_search beacon_enemy_id beacon_position next_state position
                         distance_threshold g = (inr result, g') /\
    dict_keys result =
      ["start"; "sequence"; "distance_check"; "teleport_move"; "player_pos";
       "beacon_point"; "operator"; "comparison"; "enemy_check"; "enemy_move";
       "push_next"; "enemy_finder"; "enemy_offset"] /\
    pattern_effect g g' (map snd result) 14 36.
Proof.
  intros Hiss. destruct position as [x y]. destruct g as [ns ls cur].
  unfold create_beacon_search, link_data, link_exec.
  do 2 eexists. split; [run_pattern Hiss|].
  split; [reflexivity|]. effect Hiss.
Qed.

Lemma create_beacon_search_effect_witness :
  exists result g',
    create_beacon_search 7 origin "farm_clear" origin 10%float ex_gen3
      = (inr result, g') /\
    dict_keys result =
      ["start"; "sequence"; "distance_check"; "teleport_move"; "player_pos";
       "beacon_point"; "operator"; "comparison"; "enemy_check"; "enemy_move";
       "push_next"; "enemy_finder"; "enemy_offset"] /\
    pattern_effect ex_gen3 g' (map snd result) 14 36.
Proof.
  apply (create_beacon_search_effect 7 origin "farm_clear" origin 10%float
           ex_gen3).
  repeat constructor; simpl; lia.
Defined.

(** X15. [create_clear_mobs] goes through on every generator whose links
    only join issued ids.  With a portal id that is neither [None] nor 0 it
    returns twelve nodes, the portal branch included, with 33 new ids and
    fifteen links; otherwise it returns eight nodes with 20 new ids and nine
    links and creates no portal node.  All links are between pins of the new
    nodes. *)
Theorem create_clear_mobs_effect
    (enemy_ids : list Z) (portal_id : option Z)
    (patrol_waypoints : list (float * float)) (position : Position)
    (enemy_offset_dist : float) (g : StateGenerator) :
  links_issued g ->
  exists result g',
    create_clear_mobs enemy_ids portal_id patrol_waypoints position
                      enemy_offset_dist g = (inr result, g') /\
    if has_portal portal_id then
      dict_keys result =
        ["start"; "patrol_move"; "patrol_points"; "portal_check";
         "portal_finder"; "portal_move"; "portal_enter"; "enemy_check";
         "enemy_finder"; "enemy_offset"; "enemy_move"; "patrol_fallback"] /\
      pattern_effect g g' (map snd result) 15 33
    else
      dict_keys result =
        ["start"; "patrol_move"; "patrol_points"; "enemy_check";
         "enemy_finder"; "enemy_offset"; "enemy_move"; "patrol_fallback"] /\
      pattern_effect g g' (map snd result) 9 20.
Proof.
  intros Hiss. destruct position as [x y]. destruct g as [ns ls cur].
  unfold create_clear_mobs, link_data, link_exec.
  destruct portal_id as [[|pid|pid]|]; cbn [has_portal Z.eqb negb];
    do 2 eexists;
    (split; [run_pattern Hiss|]);
    (split; [reflexivity|]); effect Hiss.
Qed.

Lemma create_clear_mobs_effect_witness :
  exists result g',
    create_clear_mobs [9828] (Some 14861) [] origin 2.5%float ex_gen3
      = (inr result, g') /\
    dict_keys result =
      ["start"; "patrol_move"; "patrol_points"; "portal_check";
       "portal_finder"; "portal_move"; "portal_enter"; "enemy_check";
       "enemy_finder"; "enemy_offset"; "enemy_move"; "patrol_fallback"] /\
    pattern_effect ex_gen3 g' (map snd result) 15 33.
Proof.
  apply (create_clear_mobs_effect [9828] (Some 14861) [] origin 2.5%float
           ex_gen3).
  repeat constructor; simpl; lia.
Defined.

(** X16. [add_nexus_handler] goes through on every generator whose links
    only join issued ids: it returns its eight nodes under their names,
    appends them in that order with 20 new ids, and adds nine links, all
    between pins of the new nodes. *)
Theorem add_nexus_handler_effect (base_x base_y : float)
    (g : StateGenerator) :
  links_issued g ->
  exists result g',
    add_nexus_handler base_x base_y g = (inr result, g') /\
    dict_keys result =
      ["map_change"; "wait"; "spawn_point"; "move_to_spawn";
       "portal_detector"; "if_portal"; "move_to_portal"; "enter_portal"] /\
    map node_type (map snd result) =
      ["MapChange"; "Wait"; "Point"; "MoveTo"; "EnemyList"; "If"; "MoveTo";
       "EnterPortal"] /\
    pattern_effect g g' (map snd result) 9 20.
Proof.
  intros Hiss. destruct g as [ns ls cur].
  unfold add_nexus_handler.
  do 2 eexists. split; [run_pattern Hiss|].
  split; [reflexivity|]. split; [reflexivity|]. effect Hiss.
Qed.

Lemma add_nexus_handler_effect_witness :
  exists result g',
    add_nexus_handler 400 (-1400) ex_gen3 = (inr result, g') /\
    dict_keys result =
      ["map_change"; "wait"; "spawn_point"; "move_to_spawn";
       "portal_detector"; "if_portal"; "move_to_portal"; "enter_portal"] /\
    map node_type (map snd result) =
      ["MapChange"; "Wait"; "Point"; "MoveTo"; "EnemyList"; "If"; "MoveTo";
       "EnterPortal"] /\
    pattern_effect ex_gen3 g' (map snd result) 9 20.
Proof.
  apply (add_nexus_handler_effect 400 (-1400) ex_gen3).
  repeat constructor; simpl; lia.
Defined.

(* ================================================================== *)
(** * The two nexus patterns *)

Ltac run_both :=
  cbv beta iota zeta delta
    [create_start_node create_sequence create_if_node
     create_push_node create_wait create_enemy_list create_player_pos
     create_point create_point_list create_move_to create_enter_portal
     create_map_change create_operator create_comparison create_save_pos
     create_offset_pos
     _create_pin get_next_id nodes_append mapM bind ret get_gen put_gen
     nodes links current_id fst snd
     create_nexus_leave NexusLeavePattern_build NexusLeavePattern_link_exec
     add_nexus_handler NEXUS_SPAWN_POINT REALM_PORTAL_ID
     liftx bindx retx dict_item dict_get dict_set fold_left
     String.eqb Ascii.eqb Bool.eqb].

Ltac same_link :=
  run_both;
  match goal with
  | |- context [link_pins ?a ?an ?b ?bn ?st] =>
      let e := fresh "e" in
      let st' := fresh "st" in
      destruct (link_pins a an b bn st) as [[e|[]] st']
  end;
  [ reflexivity | ].

(** X17. [WorkflowBuilder.create_nexus_leave] with the default spawn point,
    portal id and wait time does exactly what
    [StateGenerator.add_nexus_handler] does at the same anchor: on every
    generator the two return the same dictionary of nodes and leave the same
    nodes, links and counter, or raise the same error at the same link; the
    dictionary lookups of the pattern class never raise. *)
Theorem create_nexus_leave_matches_handler (x y : float)
    (g : StateGenerator) :
  create_nexus_leave (x, y) NEXUS_SPAWN_POINT REALM_PORTAL_ID 500 g
    = liftx (add_nexus_handler x y) g.
Proof.
  destruct g as [ns ls cur].
  do 9 same_link. run_both. reflexivity.
Qed.

(* ================================================================== *)
(** * Whole graphs, checked by computation *)

Lemma layered_no_cycles (g : StateGenerator) :
  layered g = true -> no_cycles g.
Proof. unfold layered. apply ranked_no_cycles. Qed.

Lemma owners_sound (arr : Node -> list Pin) (pid : Z) (ns : list Node) :
  forall (base i : nat),
    In i (owners arr pid ns base) ->
    exists n p, In n ns /\ In p (arr n) /\ pin_id p = pid.
Proof.
  induction ns as [|m ns IH]; intros base i Hin; [contradiction|].
  simpl in Hin. destruct (has_pin_id pid (arr m)) eqn:E.
  - destruct Hin as [_|Hin].
    + apply has_pin_id_true in E. destruct E as (p & Hp & Hid).
      exists m, p. simpl. auto.
    + destruct (IH _ _ Hin) as (n & p & Hn & Hp & Hid).
      exists n, p. simpl. auto.
  - destruct (IH _ _ Hin) as (n & p & Hn & Hp & Hid).
    exists n, p. simpl. auto.
Qed.

Lemma oriented_check_sound (g : StateGenerator) :
  oriented_check g = true -> links_oriented g.
Proof.
  unfold oriented_check, links_oriented. rewrite forallb_forall, Forall_forall.
  intros H l Hl. specialize (H l Hl). apply andb_true_iff in H.
  destruct H as [Ho Hi].
  destruct (owners out_pins (left_pin_id l) (nodes g) 0) as [|a oa] eqn:Eo;
    [discriminate|].
  destruct (owners in_pins (right_pin_id l) (nodes g) 0) as [|b ob] eqn:Ei;
    [discriminate|].
  split.
  - apply (owners_sound out_pins _ _ 0%nat a). rewrite Eo. now left.
  - apply (owners_sound in_pins _ _ 0%nat b). rewrite Ei. now left.
Qed.

(** X18. For all its arguments, with or without a portal,
    [create_clear_mobs] on a fresh generator builds a graph without cycles:
    the patrol fallback and the enemy move are continuations, no link leads
    back to a check. *)
Theorem clear_mobs_no_cycles
    (enemy_ids : list Z) (portal_id : option Z)
    (patrol_waypoints : list (float * float)) (position : Position)
    (enemy_offset_dist : float) :
  exists result g,
    create_clear_mobs enemy_ids portal_id patrol_waypoints position
                      enemy_offset_dist init = (inr result, g) /\
    map snd result = nodes g /\
    no_cycles g /\ links_oriented g.
Proof.
  destruct position as [x y].
  destruct portal_id as [[|pid|pid]|];
    (eexists; eexists; split; [vm_compute; reflexivity|]);
    (split; [reflexivity|]);
    (split; [apply layered_no_cycles | apply oriented_check_sound]);
    vm_compute; reflexivity.
Qed.

(** X19. For every anchor, spawn point, portal id and wait time,
    [create_nexus_leave] on a fresh generator returns its eight nodes
    without raising, the [KeyError] of its dictionary lookups included; the
    graph is the chain map change, wait, move to spawn, branch, move to
    portal, enter portal with its three data nodes, and it has no cycle. *)
Theorem nexus_leave_no_cycles
    (position : Position) (spawn_point : float * float)
    (portal_id wait_time : Z) :
  exists result g,
    create_nexus_leave position spawn_point portal_id wait_time init
      = (inr result, g) /\
    dict_keys result =
      ["map_change"; "wait"; "spawn_point"; "move_to_spawn";
       "portal_detector"; "if_portal"; "move_to_portal"; "enter_portal"] /\
    map snd result = nodes g /\
    List.length (links g) = 9%nat /\
    no_cycles g /\ links_oriented g.
Proof.
  destruct position as [x y]. destruct spawn_point as [sx sy].
  eexists; eexists; split; [vm_compute; reflexivity|].
  do 3 (split; [reflexivity|]).
  split; [apply layered_no_cycles | apply oriented_check_sound];
    vm_compute; reflexivity.
Qed.

(* ================================================================== *)
(** * The generators *)

Ltac realm_cases config :=
  destruct config as
    [name map_name beacon_id [bx by_] threshold clear_ids portal_id
     portal_ids waypoints offset_dist dmap dboss dadd dexit];
  destruct portal_id as [[|pid|pid]|];
  (destruct dmap as [[|c dmap]|];
   [ destruct dboss as [[|boss|boss]|]
   | destruct dboss as [[|boss|boss]|];
     [ | destruct dadd as [[|e es]|]; destruct dexit as [|ex|ex]
       | destruct dadd as [[|e es]|]; destruct dexit as [|ex|ex]
       | ]
   | ]).

Section Generators.
Variable json_dumps : json -> string.

(** [save] after a construction that went through writes the document
    of the graph the construction left. *)
Lemma generate_after_build (build : Mx unit) (g : StateGenerator) :
  build init = (inr tt, g) ->
  (build ~;; liftx (generate json_dumps)) init
    = (inr (json_dumps (JDict (document g))), g).
Proof. intros H. unfold bindx. rewrite H. reflexivity. Qed.

(** One run of the construction for each shape of config, with everything
    the two theorems below read off it. *)
Lemma realm_farmer_run (config : RealmFarmerConfig) :
  exists g,
    realm_farmer_build config init = (inr tt, g) /\
    List.length (nodes g) = rf_node_count config /\
    issued_ids g = ids_from BASE_ID (Z.to_nat (current_id g - BASE_ID)) /\
    layered g = true /\ oriented_check g = true /\
    start_names g =
      [rf_name config ++ "_beacon"; rf_name config ++ "_clear"]%string
        ++ (if rf_has_dungeon config
            then [rf_name config ++ "_dungeon"]%string else []) /\
    push_targets g = start_names g.
Proof.
  realm_cases config;
    (eexists; split; [vm_compute; reflexivity|]);
    repeat split; vm_compute; reflexivity.
Qed.

(** X20. [generate_realm_farmer] never raises, whatever the config: every
    link it requests is valid and every role it looks up exists.  It returns
    the text of the document of the graph it built; the graph has 23 nodes
    plus 12 or 8 for the clear phase (with or without a portal) plus the
    dungeon phase when a dungeon map name and a boss are given; its pin ids
    are the consecutive ids after [BASE_ID]; every link goes from an output
    pin to an input pin of its nodes; and it has no cycle. *)
Theorem generate_realm_farmer_builds (config : RealmFarmerConfig) :
  exists doc g,
    generate_realm_farmer json_dumps config = (inr doc, g) /\
    doc = json_dumps (JDict (document g)) /\
    List.length (nodes g) = rf_node_count config /\
    issued_ids g = ids_from BASE_ID (Z.to_nat (current_id g - BASE_ID)) /\
    no_cycles g /\ links_oriented g.
Proof.
  destruct (realm_farmer_run config)
    as (g & Hrun & Hn & Hids & Hlay & Hor & _).
  exists (json_dumps (JDict (document g))), g.
  split; [now apply generate_after_build|].
  repeat split; auto.
  - now apply layered_no_cycles.
  - now apply oriented_check_sound.
Qed.

(** X21. In the graph of [generate_realm_farmer] every state that a
    PushNode calls is declared by a Start node: the Start nodes are named
    [name_beacon], [name_clear] and, with a dungeon phase, [name_dungeon],
    for every name, because the generator renames the start nodes of the two
    patterns through the node objects the graph shares; and the PushNode
    targets are these same names. *)
Theorem realm_farmer_states_declared (config : RealmFarmerConfig) :
  exists doc g,
    generate_realm_farmer json_dumps config = (inr doc, g) /\
    start_names g =
      [rf_name config ++ "_beacon"; rf_name config ++ "_clear"]%string
        ++ (if rf_has_dungeon config
            then [rf_name config ++ "_dungeon"]%string else []) /\
    push_targets g = start_names g.
Proof.
  destruct (realm_farmer_run config)
    as (g & Hrun & _ & _ & _ & _ & Hs & Hp).
  exists (json_dumps (JDict (document g))), g.
  split; [now apply generate_after_build | auto].
Qed.

Ltac dungeon_cases config :=
  destruct config as [name realm_map dropper portal dmap clear boss];
  destruct dropper as [[|dr|dr]|];
  try (destruct portal as [[|po|po]|]);
  destruct clear as [|e es];
  destruct boss as [[|bo|bo]|];
  cbv beta zeta delta [dungeon_farmer_build];
  cbn [df_boss_id df_dungeon_clear_enemies truthy_opt_int Z.eqb negb andb];
  try match goal with
      | |- context [int_in ?b ?l] =>
          let E := fresh "E" in
          destruct (int_in b l) eqn:E; try (cbv in E; discriminate E)
      end.

(** X22. [generate_dungeon_farmer] never raises, whatever the config.  The
    graph has the two map triggers, eight more nodes when a portal dropper
    is given and four more when there is an enemy to scan for (a clear list
    that is not empty, or a boss); its pin ids are the consecutive ids after
    [BASE_ID], every link goes from an output pin to an input pin of its
    nodes, and it has no cycle. *)
Theorem generate_dungeon_farmer_builds (config : DungeonFarmerConfig) :
  exists doc g,
    generate_dungeon_farmer json_dumps config = (inr doc, g) /\
    doc = json_dumps (JDict (document g)) /\
    List.length (nodes g) = df_node_count config /\
    issued_ids g = ids_from BASE_ID (Z.to_nat (current_id g - BASE_ID)) /\
    no_cycles g /\ links_oriented g.
Proof.
  assert (H : exists g,
             dungeon_farmer_build config init = (inr tt, g) /\
             List.length (nodes g) = df_node_count config /\
             issued_ids g
               = ids_from BASE_ID (Z.to_nat (current_id g - BASE_ID)) /\
             layered g = true /\ oriented_check g = true).
  { dungeon_cases config;
      (eexists; split; [vm_compute; reflexivity|]);
      repeat split; vm_compute; reflexivity. }
  destruct H as (g & Hrun & Hn & Hids & Hlay & Hor).
  exists (json_dumps (JDict (document g))), g.
  split; [now apply generate_after_build|].
  repeat split; auto.
  - now apply layered_no_cycles.
  - now apply oriented_check_sound.
Qed.
End Generators.

(* ================================================================== *)
(** * The name of the beacon start node *)






